(** * The query orchestrator of the Częstochowa city guide

    A shallow embedding of [rag/pipeline.py], [rag/llm.py] and
    [rag/vector_store.py].  Python strings are modelled as [string], one
    [ascii] standing for one character; floats are IEEE binary64
    ([PrimFloat]); the three collaborators that live outside the
    repository (the ChromaDB collection, the Ollama daemon and the Python
    runtime clock) are fields of a [World] record over which every theorem
    quantifies. *)

From Stdlib Require Import ZArith String Ascii List Floats DecimalString DecimalNat DecimalFacts.
From stdpp Require Import base option list strings gmap sorting.

Local Open Scope string_scope.

(** ** Python string primitives *)

Module PyStr.

Definition nl : string := String (ascii_of_nat 10) EmptyString.
Definition dq : string := String (ascii_of_nat 34) EmptyString.

(** [str(i)] for a non-negative integer. *)
Definition of_nat (n : nat) : string :=
  NilZero.string_of_uint (Nat.to_uint n).

(** [sep.join(parts)] *)
Fixpoint join (sep : string) (parts : list string) : string :=
  match parts with
  | [] => ""
  | [p] => p
  | p :: rest => p ++ sep ++ join sep rest
  end.

(** [s[:n]] *)
Fixpoint take (n : nat) (s : string) : string :=
  match n, s with
  | S n', String c s' => String c (take n' s')
  | _, _ => ""
  end.

(** [s.startswith(p)] *)
Fixpoint startswith (s p : string) : bool :=
  match p, s with
  | "", _ => true
  | String a p', String b s' => if Ascii.eqb a b then startswith s' p' else false
  | String _ _, "" => false
  end.

(** [s.split(":")[0]]: everything before the first colon. *)
Fixpoint before_colon (s : string) : string :=
  match s with
  | "" => ""
  | String c s' => if Ascii.eqb c ":"%char then "" else String c (before_colon s')
  end.

(** [str.isspace] on one character of the Latin-1 range. *)
Definition isspace (c : ascii) : bool :=
  let n := N_of_ascii c in
  ((9 <=? n) && (n <=? 13) || (28 <=? n) && (n <=? 32)
   || (n =? 133) || (n =? 160))%N.

Fixpoint lstrip (s : string) : string :=
  match s with
  | "" => ""
  | String c s' => if isspace c then lstrip s' else s
  end.

Definition rstrip (s : string) : string := String.rev (lstrip (String.rev s)).

(** [s.strip()] *)
Definition strip (s : string) : string := rstrip (lstrip s).

(** Truth value of a string: [if s:] *)
Definition truthy (s : string) : bool :=
  match s with "" => false | _ => true end.

End PyStr.

(** ** Data model *)

(** A number stored in metadata: Python [int] or [float]. *)
Inductive Number :=
| NInt (z : Z)
| NFloat (f : float).

(** The metadata dict written by [index_documents]: keys [name],
    [category], [lat], [lon], [rating].  A key that is absent from the
    dict is [None]. *)
Record Metadata := {
  md_name : option string;
  md_category : option string;
  md_lat : option float;
  md_lon : option float;
  md_rating : option Number
}.

(** The empty dict [{}]. *)
Definition md_empty : Metadata :=
  {| md_name := None; md_category := None; md_lat := None;
     md_lon := None; md_rating := None |}.

(** Truth value of a metadata dict: it has at least one key. *)
Definition md_truthy (m : Metadata) : bool :=
  bool_decide (is_Some (md_name m)) || bool_decide (is_Some (md_category m))
  || bool_decide (is_Some (md_lat m)) || bool_decide (is_Some (md_lon m))
  || bool_decide (is_Some (md_rating m)).

(** One entry of the list returned by [VectorStore.search], for a record
    that was stored with a metadata dict, as [index_documents] stores all
    of its records. *)
Record RetrievedDoc := {
  doc_document : string;
  doc_metadata : Metadata;
  doc_distance : float;
  doc_id : option string
}.

(** Exceptions that can leave the orchestrator. *)
Inductive Exn :=
| ChromaError (msg : string)      (* raised by the collection *)
| ValueError (msg : string)
| IndexError
| JSONDecodeError
| TypeError (msg : string)
| AttributeError.

Inductive PyResult (A : Type) :=
| Ok (a : A)
| Raise (e : Exn).
Arguments Ok {A} a.
Arguments Raise {A} e.

(** ** [RAGPipeline.build_context] and [RAGPipeline._fallback_answer] *)

(** The loop [for i, doc in enumerate(retrieved_docs, 1)]: [i] is the
    running index and [context_parts] the list built so far. *)
Fixpoint build_context_loop (i : nat) (context_parts : list string)
    (retrieved_docs : list RetrievedDoc) : list string :=
  match retrieved_docs with
  | [] => context_parts
  | doc :: rest =>
      build_context_loop (S i)
        (context_parts ++ ["[Source " ++ PyStr.of_nat i ++ "]: " ++ doc_document doc])
        rest
  end.

Definition build_context (retrieved_docs : list RetrievedDoc) : string :=
  match retrieved_docs with
  | [] => ""
  | _ => PyStr.join (PyStr.nl ++ PyStr.nl) (build_context_loop 1 [] retrieved_docs)
  end.

(** The part of the context that belongs to the document of rank [i + 1]. *)
Definition context_part (i : nat) (doc : RetrievedDoc) : string :=
  "[Source " ++ PyStr.of_nat (S i) ++ "]: " ++ doc_document doc.

Definition NO_INFO_MESSAGE : string :=
  "I couldn't find relevant information to answer your question.".

Definition FALLBACK_PREAMBLE : string :=
  "Based on the available information:" ++ PyStr.nl ++ PyStr.nl.

Definition _fallback_answer (query context : string) : string :=
  if negb (PyStr.truthy context) then NO_INFO_MESSAGE
  else FALLBACK_PREAMBLE ++ PyStr.take 1000 context ++ "...".

(** ** [config.py] *)

Definition TOP_K_RESULTS : Z := 3.
Definition OLLAMA_MODEL : string := "gemma:7b".

(** ** The Ollama client, [rag/llm.py] *)

Module LLM.

(** Outcome of [requests.get(f"{base_url}/api/tags")]: a
    [RequestException], or a response with its status code and the
    [name] of every entry of its [models] list (a body of the daemon's
    schema: [models] is a list of objects). *)
Inductive TagsReply :=
| TagsRequestException (msg : string)
| TagsHttp (status_code : Z) (model_names : list string).

(** The JSON body sent to [/api/generate]. *)
Record Payload := {
  p_model : string;
  p_prompt : string;
  p_stream : bool;
  p_temperature : float;
  p_num_predict : Z
}.

(** Outcome of the non-streaming [requests.post]: [http_error] is the
    text of the [HTTPError] that [raise_for_status] raises for a 4xx or
    5xx status, [response] the [response] key of the JSON body.  The body
    follows the daemon's schema: a JSON object whose [response], when
    present, is a string. *)
Inductive GenerateReply :=
| GenRequestException (msg : string)
| GenHttp (status_code : Z) (http_error : string) (response : option string).

(** One line of a streaming body as [iter_lines] delivers it: empty,
    a JSON object of the daemon's schema (a string [response], a boolean
    [done], either may be absent), or text that is not JSON. *)
Inductive Line :=
| BlankLine
| JsonLine (response : option string) (done : bool)
| GarbageLine.                     (* [json.loads] rejects it *)

(** How the line iterator ends: exhausted, or broken by a
    [RequestException] of the transport. *)
Inductive StreamEnd :=
| EndOfStream
| StreamBroken (msg : string).

Inductive StreamReply :=
| StrRequestException (msg : string)
| StrHttp (status_code : Z) (http_error : string)
          (lines : list Line) (tail : StreamEnd).

(** [Response.raise_for_status] raises exactly for 4xx and 5xx. *)
Definition is_http_error (status_code : Z) : bool :=
  ((400 <=? status_code) && (status_code <? 600))%Z.

Definition is_available (model : string) (reply : TagsReply) : bool :=
  match reply with
  | TagsRequestException _ => false
  | TagsHttp status_code model_names =>
      if (status_code =? 200)%Z then
        existsb (fun name =>
                   String.eqb name model
                   || PyStr.startswith name (PyStr.before_colon model))
                model_names
      else false
  end.

(** The instruction block of [_build_rag_prompt] (its non-ASCII letters
    are written as their UTF-8 bytes). *)
Definition PROMPT_INSTRUCTIONS : string :=
  PyStr.join PyStr.nl
    [ "You are a friendly and helpful tourist guide for Częstochowa, Poland.";
      "";
      "INSTRUCTIONS:";
      "1. Answer the question using ONLY the information from the Context below.";
      "2. If the context contains relevant information, provide a helpful answer with specific details (names, addresses, ratings).";
      "3. If the context contains RELATED information (e.g., user asks about "
        ++ PyStr.dq ++ "Jasna Góra" ++ PyStr.dq ++ " and context mentions "
        ++ PyStr.dq ++ "Wieża Jasnogórska" ++ PyStr.dq
        ++ " or related sites), use that information and explain the connection.";
      "4. Be conversational and helpful. Recommend the best options based on ratings.";
      "5. If you truly cannot find relevant information, politely say so and suggest what IS available.";
      "";
      "Context:";
      "" ].

Definition _build_rag_prompt (question context : string) : string :=
  PROMPT_INSTRUCTIONS ++ context ++ PyStr.nl ++ PyStr.nl
  ++ "Question: " ++ question ++ PyStr.nl ++ PyStr.nl ++ "Answer:".

Definition full_prompt (prompt context : string) : string :=
  if PyStr.truthy context then _build_rag_prompt prompt context else prompt.

Definition payload (model prompt context : string) (stream : bool) : Payload :=
  {| p_model := model;
     p_prompt := full_prompt prompt context;
     p_stream := stream;
     p_temperature := 0x1.6666666666666p-1%float;   (* 0.7 *)
     p_num_predict := 500 |}.

(** [LLM.generate]: every [RequestException] of the [try] block becomes
    an answer text. *)
Definition generate (reply : GenerateReply) : string :=
  match reply with
  | GenRequestException msg => "Error communicating with Ollama: " ++ msg
  | GenHttp status_code http_error response =>
      if is_http_error status_code
      then "Error communicating with Ollama: " ++ http_error
      else PyStr.strip (default "" response)
  end.

(** The loop [for line in response.iter_lines()] of [generate_stream]:
    the fragments yielded, and the exception (if any) that ends the
    generator instead of a normal return. *)
Fixpoint iter_lines (lines : list Line) (tail : StreamEnd)
  : list string * option Exn :=
  match lines with
  | [] =>
      match tail with
      | EndOfStream => ([], None)
      | StreamBroken msg => (["Error: " ++ msg], None)
      end
  | BlankLine :: rest => iter_lines rest tail
  | GarbageLine :: _ => ([], Some JSONDecodeError)
  | JsonLine response done :: rest =>
      let yielded := match response with Some r => [r] | None => [] end in
      if done then (yielded, None)
      else let '(more, e) := iter_lines rest tail in ((yielded ++ more)%list, e)
  end.

Definition generate_stream (reply : StreamReply) : list string * option Exn :=
  match reply with
  | StrRequestException msg => (["Error: " ++ msg], None)
  | StrHttp status_code http_error lines tail =>
      if is_http_error status_code then (["Error: " ++ http_error], None)
      else iter_lines lines tail
  end.

End LLM.

(** ** The vector store, [rag/vector_store.py] *)

(** A record of the ChromaDB collection, as [index_documents] adds it. *)
Record StoredDoc := {
  sd_id : string;
  sd_document : string;
  sd_metadata : Metadata
}.

(** The dict returned by [collection.query] for one query embedding. *)
Record QueryResults := {
  qr_ids : list (list string);
  qr_documents : list (list string);
  qr_metadatas : list (list Metadata);
  qr_distances : list (list float)
}.

(** ** The world outside the repository *)

Record World := {
  (** records of the persistent collection, in the order the collection
      lists them; [None] when the collection behind the handle no longer
      exists *)
  collection : option (list StoredDoc);
  (** distance between the embedding of a query and a stored document *)
  embedding_distance : string -> StoredDoc -> float;
  (** the Ollama daemon's answer to the n-th request sent to it *)
  ollama_tags : nat -> LLM.TagsReply;
  ollama_generate : nat -> LLM.Payload -> LLM.GenerateReply;
  ollama_stream : nat -> LLM.Payload -> LLM.StreamReply;
  (** the n-th reading of [time.time()] *)
  clock : nat -> float;
  (** the builtin [round(x, 2)] *)
  round2 : float -> float
}.

Module Chroma.

(** The [where={"category": c}] filter: equality on the category key. *)
Definition matches (where_clause : option string) (d : StoredDoc) : bool :=
  match where_clause with
  | None => true
  | Some c => bool_decide (md_category (sd_metadata d) = Some c)
  end.

(** Ascending distance, ties in insertion order: a record goes before
    the ranked ones, all of them inserted after it, that are not nearer. *)
Fixpoint insert_by (dist : StoredDoc -> float) (d : StoredDoc)
    (ranked : list StoredDoc) : list StoredDoc :=
  match ranked with
  | [] => [d]
  | r :: rest =>
      if PrimFloat.leb (dist d) (dist r) then d :: ranked
      else r :: insert_by dist d rest
  end.

Definition rank (dist : StoredDoc -> float) (docs : list StoredDoc)
  : list StoredDoc :=
  foldr (insert_by dist) [] docs.

(** Modelled from the spec: the nearest-neighbour query of the vector
    index, an external collaborator (section 6: up to [top_k] matches
    ordered by ascending distance, the filter an equality match on the
    category).  A handle whose collection is gone raises, and a
    non-positive [n_results] is refused with a [TypeError]. *)
Definition query (W : World) (query_text : string) (n_results : Z)
    (where_clause : option string) : PyResult QueryResults :=
  match collection W with
  | None => Raise (ChromaError "Collection does not exist.")
  | Some docs =>
      if (n_results <=? 0)%Z
      then Raise (TypeError ("Number of requested results "
                               ++ NilZero.string_of_int (Z.to_int n_results)
                               ++ ", cannot be negative, or zero."))
      else
        let dist := embedding_distance W query_text in
        let hits := take (Z.to_nat n_results)
                         (rank dist (filter (fun d => matches where_clause d = true) docs)) in
        Ok {| qr_ids := [sd_id <$> hits];
              qr_documents := [sd_document <$> hits];
              qr_metadatas := [sd_metadata <$> hits];
              qr_distances := [dist <$> hits] |}
  end.

(** Modelled from the spec: [collection.get(limit=n, include=["metadatas"])],
    the metadata of the first [n] records. *)
Definition get_metadatas (W : World) (limit : nat) : PyResult (list Metadata) :=
  match collection W with
  | None => Raise (ChromaError "Collection does not exist.")
  | Some docs => Ok (sd_metadata <$> take limit docs)
  end.

(** [collection.count()] *)
Definition count (W : World) : PyResult nat :=
  match collection W with
  | None => Raise (ChromaError "Collection does not exist.")
  | Some docs => Ok (length docs)
  end.

End Chroma.

(** Exceptions propagate through sequenced calls. *)
#[global] Instance PyResult_ret : MRet PyResult := fun A a => Ok a.
#[global] Instance PyResult_bind : MBind PyResult := fun A B f r =>
  match r with
  | Ok a => f a
  | Raise e => Raise e
  end.

Module VectorStore.

(** [ll[0][i]], raising [IndexError] when out of range. *)
Definition index0 {A} (ll : list (list A)) (i : nat) : PyResult A :=
  match ll with
  | [] => Raise IndexError
  | l :: _ => match l !! i with
              | Some x => Ok x
              | None => Raise IndexError
              end
  end.

(** The loop [for i, doc in enumerate(results["documents"][0])] of
    [search].  A missing [distances] list gives the integer [0], written
    here as the float zero. *)
Fixpoint search_loop (results : QueryResults) (i : nat) (docs : list string)
  : PyResult (list RetrievedDoc) :=
  match docs with
  | [] => Ok []
  | doc :: rest =>
      metadata ← match qr_metadatas results with
                  | [] => Ok md_empty
                  | _ => index0 (qr_metadatas results) i
                  end;
      distance ← match qr_distances results with
                  | [] => Ok 0%float
                  | _ => index0 (qr_distances results) i
                  end;
      id ← match qr_ids results with
            | [] => Ok None
            | _ => x ← index0 (qr_ids results) i; Ok (Some x)
            end;
      formatted ← search_loop results (S i) rest;
      Ok ({| doc_document := doc; doc_metadata := metadata;
             doc_distance := distance; doc_id := id |} :: formatted)
  end.

Definition where_clause (category_filter : option string) : option string :=
  match category_filter with
  | Some c => if PyStr.truthy c then Some c else None
  | None => None
  end.

Definition search (W : World) (query : string) (top_k : Z)
    (category_filter : option string) : PyResult (list RetrievedDoc) :=
  results ← Chroma.query W query top_k (where_clause category_filter);
  match qr_documents results with
  | [] => Ok []
  | docs :: _ => search_loop results 0 docs
  end.

(** One round of the loop over [results.get("metadatas", [])] of
    [get_all_categories]: [categories.add(metadata["category"])] under
    the guard [if metadata and "category" in metadata]. *)
Definition categories_step (categories : gset string) (metadata : Metadata)
  : gset string :=
  match md_category metadata with
  | Some c => if md_truthy metadata then categories ∪ {[ c ]} else categories
  | None => categories
  end.

Definition categories_loop (metadatas : list Metadata) : gset string :=
  foldl categories_step ∅ metadatas.

(** [sorted(list(categories))]; Python compares strings by code point. *)
Definition sorted (categories : gset string) : list string :=
  merge_sort String.le (elements categories).

Definition get_all_categories (W : World) : PyResult (list string) :=
  metadatas ← Chroma.get_metadatas W 1000;
  Ok (sorted (categories_loop metadatas)).

End VectorStore.

(** ** The orchestrator, [rag/pipeline.py] *)

(** What [query] returns. *)
Record Source := {
  src_name : string;
  src_category : string;
  src_rating : Number;
  src_relevance_score : float
}.

Record ResponseMetadata := {
  total_time_ms : float;
  retrieval_time_ms : float;
  generation_time_ms : float;
  documents_retrieved : nat;
  llm_available : bool
}.

(** The response dict: the key [sources] is present exactly when the
    field is [Some]. *)
Record Response := {
  answer : string;
  metadata : ResponseMetadata;
  sources : option (list Source)
}.

(** What [query_stream] yields. *)
Record StreamSource := {
  ss_name : string;
  ss_category : string;
  ss_rating : Number
}.

Inductive Event :=
| EvSources (sources : list StreamSource)
| EvAnswer (chunk : string)
| EvDone (documents_retrieved : nat).

(** The mutable state a pipeline instance works on: its cached
    availability flag, the model name of its client, and how often the
    outside world has been consulted so far. *)
Record State := {
  _llm_available : option bool;
  llm_model : string;
  http_requests : nat;          (* requests sent to the Ollama daemon *)
  availability_probes : nat;    (* calls of [LLM.is_available] *)
  clock_reads : nat             (* calls of [time.time()] *)
}.

(** [RAGPipeline.__init__] *)
Definition init : State :=
  {| _llm_available := None; llm_model := OLLAMA_MODEL;
     http_requests := 0; availability_probes := 0; clock_reads := 0 |}.

(** Probes made so far, plus the one a state without a cached flag may
    still make. *)
Definition probe_budget (s : State) : nat :=
  availability_probes s
  + match _llm_available s with None => 1 | Some _ => 0 end.

(** [s'] comes after [s] without a probe beyond the budget and without
    losing a cached flag. *)
Definition cache_stable (s s' : State) : Prop :=
  probe_budget s' = probe_budget s
  /\ forall b : bool, _llm_available s = Some b -> _llm_available s' = Some b.

(** Computations of the orchestrator: state passing with exceptions. *)
Definition M (A : Type) : Type := State -> PyResult A * State.

#[global] Instance M_ret : MRet M := fun A a s => (Ok a, s).
#[global] Instance M_bind : MBind M := fun A B f m s =>
  match m s with
  | (Ok a, s') => f a s'
  | (Raise e, s') => (Raise e, s')
  end.

Definition lift_result {A} (r : PyResult A) : M A := fun s => (r, s).
Definition lift_total {A} (f : State -> A * State) : M A :=
  fun s => let '(a, s') := f s in (Ok a, s').

Section Pipeline.

Context (W : World).

(** [time.time()] *)
Definition time_time : State -> float * State := fun s =>
  (clock W (clock_reads s),
   {| _llm_available := _llm_available s; llm_model := llm_model s;
      http_requests := http_requests s;
      availability_probes := availability_probes s;
      clock_reads := S (clock_reads s) |}).

(** [self.llm.is_available()] *)
Definition llm_is_available : State -> bool * State := fun s =>
  (LLM.is_available (llm_model s) (ollama_tags W (http_requests s)),
   {| _llm_available := _llm_available s; llm_model := llm_model s;
      http_requests := S (http_requests s);
      availability_probes := S (availability_probes s);
      clock_reads := clock_reads s |}).

Definition set_llm_available (b : bool) (s : State) : State :=
  {| _llm_available := Some b; llm_model := llm_model s;
     http_requests := http_requests s;
     availability_probes := availability_probes s;
     clock_reads := clock_reads s |}.

Definition check_llm : State -> bool * State := fun s =>
  match _llm_available s with
  | None => let '(b, s') := llm_is_available s in (b, set_llm_available b s')
  | Some b => (b, s)
  end.

Definition retrieve (query : string) (top_k : Z) (category : option string)
  : PyResult (list RetrievedDoc) :=
  VectorStore.search W query top_k category.

(** [self.llm.generate(query, context=context)] *)
Definition llm_generate (prompt context : string) : State -> string * State :=
  fun s =>
    (LLM.generate
       (ollama_generate W (http_requests s)
          (LLM.payload (llm_model s) prompt context false)),
     {| _llm_available := _llm_available s; llm_model := llm_model s;
        http_requests := S (http_requests s);
        availability_probes := availability_probes s;
        clock_reads := clock_reads s |}).

(** [self.llm.generate_stream(question, context=context)], run until the
    generator is exhausted. *)
Definition llm_generate_stream (prompt context : string)
  : State -> (list string * option Exn) * State :=
  fun s =>
    (LLM.generate_stream
       (ollama_stream W (http_requests s)
          (LLM.payload (llm_model s) prompt context true)),
     {| _llm_available := _llm_available s; llm_model := llm_model s;
        http_requests := S (http_requests s);
        availability_probes := availability_probes s;
        clock_reads := clock_reads s |}).

Definition generate_answer (query context : string) : State -> string * State :=
  fun s =>
    let '(available, s1) := check_llm s in
    if negb available then (_fallback_answer query context, s1)
    else llm_generate query context s1.

(** [round(seconds * 1000, 2)] *)
Definition ms (seconds : float) : float := round2 W (seconds * 1000)%float.

Definition source_of (doc : RetrievedDoc) : Source :=
  {| src_name := default "Unknown" (md_name (doc_metadata doc));
     src_category := default "N/A" (md_category (doc_metadata doc));
     src_rating := default (NInt 0) (md_rating (doc_metadata doc));
     src_relevance_score := (1 - doc_distance doc)%float |}.

Definition query (question : string) (top_k : Z) (category : option string)
    (return_sources : bool) : M Response :=
  start_time ← lift_total time_time;
  retrieval_start ← lift_total time_time;
  retrieved_docs ← lift_result (retrieve question top_k category);
  retrieval_end ← lift_total time_time;
  let retrieval_time := (retrieval_end - retrieval_start)%float in
  let context := build_context retrieved_docs in
  generation_start ← lift_total time_time;
  answer ← lift_total (generate_answer question context);
  generation_end ← lift_total time_time;
  let generation_time := (generation_end - generation_start)%float in
  end_time ← lift_total time_time;
  let total_time := (end_time - start_time)%float in
  available ← lift_total check_llm;
  mret {| answer := answer;
          metadata := {| total_time_ms := ms total_time;
                         retrieval_time_ms := ms retrieval_time;
                         generation_time_ms := ms generation_time;
                         documents_retrieved := length retrieved_docs;
                         llm_available := available |};
          sources := if return_sources
                     then Some (source_of <$> retrieved_docs)
                     else None |}.

Definition stream_source_of (doc : RetrievedDoc) : StreamSource :=
  {| ss_name := default "Unknown" (md_name (doc_metadata doc));
     ss_category := default "N/A" (md_category (doc_metadata doc));
     ss_rating := default (NInt 0) (md_rating (doc_metadata doc)) |}.

(** [query_stream], consumed to the end: the events yielded in order,
    and the exception that ended the generator, if one did. *)
Definition query_stream (question : string) (top_k : Z)
    (category : option string) : State -> (list Event * option Exn) * State :=
  fun s =>
    match retrieve question top_k category with
    | Raise e => (([], Some e), s)
    | Ok retrieved_docs =>
        let sources := stream_source_of <$> retrieved_docs in
        let context := build_context retrieved_docs in
        let '(available, s1) := check_llm s in
        if available then
          let '((chunks, e), s2) := llm_generate_stream question context s1 in
          match e with
          | Some e =>
              ((EvSources sources :: (EvAnswer <$> chunks), Some e), s2)
          | None =>
              ((EvSources sources :: (EvAnswer <$> chunks)
                  ++ [EvDone (length retrieved_docs)], None), s2)
          end
        else
          (([EvSources sources;
             EvAnswer (_fallback_answer question context);
             EvDone (length retrieved_docs)], None), s1)
    end.

Definition get_categories : PyResult (list string) :=
  VectorStore.get_all_categories W.

(** *** Names for intermediate values of the calls above *)

(** The matches the collection reports for a query. *)
Definition hits (docs : list StoredDoc) (query : string) (top_k : Z)
    (category : option string) : list StoredDoc :=
  take (Z.to_nat top_k)
    (Chroma.rank (embedding_distance W query)
       (filter (fun d => Chroma.matches (VectorStore.where_clause category) d = true)
               docs)).

(** The entry [search] formats for one match. *)
Definition retrieved_of (query : string) (d : StoredDoc) : RetrievedDoc :=
  {| doc_document := sd_document d;
     doc_metadata := sd_metadata d;
     doc_distance := embedding_distance W query d;
     doc_id := Some (sd_id d) |}.

(** The state after one more reading of the clock. *)
Definition tick (s : State) : State := snd (time_time s).

(** The state in which [query] calls [generate_answer]. *)
Definition at_generation (s : State) : State := tick (tick (tick (tick s))).

(** The state [query] leaves behind once retrieval has succeeded. *)
Definition after_query (question : string) (docs : list RetrievedDoc)
    (s : State) : State :=
  snd (check_llm
         (tick (tick (snd (generate_answer question (build_context docs)
                             (at_generation s)))))).

(** *** Calls a delivery layer makes on one pipeline instance *)

Inductive Call :=
| CallCheckLlm
| CallQuery (question : string) (top_k : Z) (category : option string)
            (return_sources : bool)
| CallQueryStream (question : string) (top_k : Z) (category : option string).

Definition run_call (c : Call) (s : State) : State :=
  match c with
  | CallCheckLlm => snd (check_llm s)
  | CallQuery question top_k category return_sources =>
      snd (query question top_k category return_sources s)
  | CallQueryStream question top_k category =>
      snd (query_stream question top_k category s)
  end.

Definition run_calls (cs : list Call) (s : State) : State :=
  foldl (fun s c => run_call c s) s cs.

End Pipeline.

(** ** Sample worlds *)

Module Demo.

Definition jasna_gora : StoredDoc :=
  {| sd_id := "1";
     sd_document := "Jasna Gora Monastery houses the Black Madonna painting.";
     sd_metadata := {| md_name := Some "Jasna Gora";
                       md_category := Some "religious_site";
                       md_lat := Some 50.8125%float;
                       md_lon := Some 19.125%float;
                       md_rating := Some (NFloat 5%float) |} |}.

(** A record stored with its coordinates only: its metadata has no
    name, no category and no rating. *)
Definition unlabelled : StoredDoc :=
  {| sd_id := "2"; sd_document := "A quiet park by the river.";
     sd_metadata := {| md_name := None; md_category := None;
                       md_lat := Some 50.75%float; md_lon := Some 19.0625%float;
                       md_rating := None |} |}.

Definition hotel (n : nat) : StoredDoc :=
  {| sd_id := PyStr.of_nat n; sd_document := "A hotel near the station.";
     sd_metadata := {| md_name := Some "Hotel"; md_category := Some "hotel";
                       md_lat := None; md_lon := None;
                       md_rating := Some (NInt 4) |} |}.

Definition museum : StoredDoc :=
  {| sd_id := "m"; sd_document := "The museum of iron ore mining.";
     sd_metadata := {| md_name := Some "Museum"; md_category := Some "museum";
                       md_lat := None; md_lon := None;
                       md_rating := Some (NInt 5) |} |}.

Definition distance (query : string) (d : StoredDoc) : float :=
  if String.eqb (sd_id d) "1" then 0.25%float else 1.5%float.

(** A clock that does not advance between two readings; every duration
    is then [0.0], which [round(x, 2)] leaves as it is. *)
Definition steady_clock (n : nat) : float := 1762000000%float.
Definition round2_of_zero (x : float) : float := x.

Definition refused : string := "Connection refused".

Definition world (coll : option (list StoredDoc))
    (tags : nat -> LLM.TagsReply)
    (gen : nat -> LLM.Payload -> LLM.GenerateReply)
    (str : nat -> LLM.Payload -> LLM.StreamReply) : World :=
  {| collection := coll; embedding_distance := distance;
     ollama_tags := tags; ollama_generate := gen; ollama_stream := str;
     clock := steady_clock; round2 := round2_of_zero |}.

(** The daemon is not running. *)
Definition tags_down (n : nat) : LLM.TagsReply := LLM.TagsRequestException refused.
Definition gen_down (n : nat) (p : LLM.Payload) : LLM.GenerateReply :=
  LLM.GenRequestException refused.
Definition str_down (n : nat) (p : LLM.Payload) : LLM.StreamReply :=
  LLM.StrRequestException refused.

(** The daemon runs and serves the configured model. *)
Definition tags_up (n : nat) : LLM.TagsReply := LLM.TagsHttp 200 ["gemma:7b"].
Definition gen_up (n : nat) (p : LLM.Payload) : LLM.GenerateReply :=
  LLM.GenHttp 200 "" (Some " Welcome to Czestochowa! ").
(** A streaming body whose only line is a JSON object without a
    [response] key, as when the daemon reports an error in the stream. *)
Definition str_silent (n : nat) (p : LLM.Payload) : LLM.StreamReply :=
  LLM.StrHttp 200 "" [LLM.JsonLine None false] LLM.EndOfStream.
Definition str_up (n : nat) (p : LLM.Payload) : LLM.StreamReply :=
  LLM.StrHttp 200 ""
    [LLM.JsonLine (Some "Wel") false; LLM.BlankLine;
     LLM.JsonLine (Some "come") true] LLM.EndOfStream.

(** Two documents indexed, daemon down. *)
Definition W_down : World :=
  world (Some [jasna_gora; unlabelled]) tags_down gen_down str_down.
(** Two documents indexed, daemon up. *)
Definition W_up : World :=
  world (Some [jasna_gora; unlabelled]) tags_up gen_up str_up.
(** Nothing indexed, daemon up. *)
Definition W_empty_up : World := world (Some []) tags_up gen_up str_silent.
(** Nothing indexed, daemon down. *)
Definition W_empty_down : World := world (Some []) tags_down gen_down str_down.
(** The collection behind the handle has been deleted. *)
Definition W_missing : World := world None tags_down gen_down str_down.
(** The daemon answers the availability probe and is gone afterwards. *)
Definition W_flaky : World :=
  world (Some [jasna_gora]) tags_up gen_down str_down.
(** A thousand hotels indexed before one museum. *)
Definition W_big : World :=
  world (Some ((hotel <$> seq 0 1000) ++ [museum])%list) tags_down gen_down str_down.

Definition question : string := "Tell me about Jasna Gora".

End Demo.

(** * The rest of the client, the store and the delivery layer *)

(** ** More string primitives *)

Module PyText.

(** Every character of [s] is whitespace ([s] may be empty). *)
Fixpoint only_whitespace (s : string) : bool :=
  match s with
  | "" => true
  | String c s' => PyStr.isspace c && only_whitespace s'
  end.

End PyText.

(** ** Formatting the collection's answer, [VectorStore.search] *)

(** The part of [search] after [collection.query] has returned. *)
Definition format_results (results : QueryResults) : PyResult (list RetrievedDoc) :=
  match qr_documents results with
  | [] => Ok []
  | docs :: _ => VectorStore.search_loop results 0 docs
  end.

(** ** Listing and switching models, [rag/llm.py] *)

Module Models.

(** [LLM.get_available_models]: the listed names on status 200, the empty
    list on any other status and on a [RequestException]. *)
Definition get_available_models (reply : LLM.TagsReply) : list string :=
  match reply with
  | LLM.TagsRequestException _ => []
  | LLM.TagsHttp status_code model_names =>
      if (status_code =? 200)%Z then model_names else []
  end.

(** The test of the loop of [LLM.set_model]: some available name equals
    the requested one or starts with what precedes its first colon. *)
Definition set_model (model_name : string) (reply : LLM.TagsReply) : bool :=
  existsb (fun name =>
             String.eqb name model_name
             || PyStr.startswith name (PyStr.before_colon model_name))
          (get_available_models reply).

End Models.

Section Client.

Context (W : World).

(** [self.llm.get_available_models()] on the client of a pipeline. *)
Definition llm_get_available_models : State -> list string * State := fun s =>
  (Models.get_available_models (ollama_tags W (http_requests s)),
   {| _llm_available := _llm_available s; llm_model := llm_model s;
      http_requests := S (http_requests s);
      availability_probes := availability_probes s;
      clock_reads := clock_reads s |}).

(** [self.llm.set_model(model_name)]: [self.model] is assigned only when
    the loop finds a match. *)
Definition llm_set_model (model_name : string) : State -> bool * State := fun s =>
  let success := Models.set_model model_name (ollama_tags W (http_requests s)) in
  (success,
   {| _llm_available := _llm_available s;
      llm_model := if success then model_name else llm_model s;
      http_requests := S (http_requests s);
      availability_probes := availability_probes s;
      clock_reads := clock_reads s |}).

(** [self.llm.get_current_model()] *)
Definition llm_get_current_model (s : State) : string := llm_model s.

End Client.

(** ** The Flask routes, [app.py] *)

Module App.

(** The JSON object posted to [/api/chat] and [/api/chat/stream]; an
    absent key is [None]. *)
Record ChatRequest := {
  req_message : option string;
  req_category : option string;
  req_include_sources : option bool
}.

(** The JSON object of a successful [/api/chat] reply. *)
Record ChatBody := {
  body_answer : string;
  body_sources : list Source;
  body_metadata : ResponseMetadata
}.

(** What a route returns: status 200 with a body, status 400 with an
    error text, or status 500 with [str(e)] of the exception caught. *)
Inductive Reply (Body : Type) :=
| Http200 (body : Body)
| Http400 (error : string)
| Http500 (e : Exn).
Arguments Http200 {Body} body.
Arguments Http400 {Body} error.
Arguments Http500 {Body} e.

(** [get_rag_pipeline]: the module global [_pipeline] is [None] until the
    first route needs it. *)
Definition get_rag_pipeline (app : option State) : State := default init app.

Definition chat (W : World) (data : ChatRequest) (app : option State)
  : Reply ChatBody * option State :=
  let question := PyStr.strip (default "" (req_message data)) in
  if negb (PyStr.truthy question) then (Http400 "No message provided", app)
  else
    let category := req_category data in
    let include_sources := default true (req_include_sources data) in
    let pipeline := get_rag_pipeline app in
    match query W question TOP_K_RESULTS category include_sources pipeline with
    | (Ok result, pipeline') =>
        (Http200 {| body_answer := answer result;
                    body_sources := default [] (sources result);
                    body_metadata := metadata result |},
         Some pipeline')
    | (Raise e, pipeline') => (Http500 e, Some pipeline')
    end.

(** The body of a streaming reply: the events the generator handed to
    the server, and the exception that broke the stream, if one did.  The
    generator runs after the route has returned, outside its [try]. *)
Record StreamBody := {
  stream_events : list Event;
  stream_raised : option Exn
}.

Definition chat_stream (W : World) (data : ChatRequest) (app : option State)
  : Reply StreamBody * option State :=
  let question := PyStr.strip (default "" (req_message data)) in
  if negb (PyStr.truthy question) then (Http400 "No message provided", app)
  else
    let category := req_category data in
    let pipeline := get_rag_pipeline app in
    let '((events, raised), pipeline') :=
      query_stream W question TOP_K_RESULTS category pipeline in
    (Http200 {| stream_events := events; stream_raised := raised |},
     Some pipeline').

(** The JSON object of [/api/status]. *)
Record StatusBody := {
  st_status : string;
  st_documents_indexed : nat;
  st_llm_available : bool;
  st_current_model : string;
  st_categories : list string
}.

Definition get_status (W : World) (app : option State)
  : Reply StatusBody * option State :=
  let pipeline := get_rag_pipeline app in
  match Chroma.count W with
  | Raise e => (Http500 e, Some pipeline)
  | Ok doc_count =>
      let '(available, pipeline') := check_llm W pipeline in
      let current_model := llm_get_current_model pipeline' in
      match get_categories W with
      | Raise e => (Http500 e, Some pipeline')
      | Ok categories =>
          (Http200 {| st_status := if (0 <? doc_count)%nat then "ready" else "no_data";
                      st_documents_indexed := doc_count;
                      st_llm_available := available;
                      st_current_model := current_model;
                      st_categories := categories |},
           Some pipeline')
      end
  end.

(** [/api/models/switch] *)
Definition switch_model (W : World) (model : option string) (app : option State)
  : Reply string * option State :=
  let model_name := PyStr.strip (default "" model) in
  if negb (PyStr.truthy model_name) then (Http400 "No model specified", app)
  else
    let pipeline := get_rag_pipeline app in
    let '(success, pipeline') := llm_set_model W model_name pipeline in
    if success then (Http200 (llm_get_current_model pipeline'), Some pipeline')
    else (Http400 ("Model '" ++ model_name ++ "' not available"), Some pipeline').

End App.




(** ** More sample worlds *)

Module Scenario.

(** The daemon is down when the first request arrives and up, with
    another tag of the model installed, from the second request on. *)
Definition tags_late (n : nat) : LLM.TagsReply :=
  match n with
  | 0 => LLM.TagsRequestException Demo.refused
  | S _ => LLM.TagsHttp 200 ["gemma:2b"]
  end.

Definition W_late : World :=
  Demo.world (Some [Demo.jasna_gora; Demo.unlabelled])
    tags_late Demo.gen_up Demo.str_up.

(** The pipeline of [W_late] after its first availability check. *)
Definition after_failed_probe : State := snd (check_llm W_late init).

End Scenario.

(** ** Points of interest, [data/fetch_osm_data.py] *)

Module Osm.

(** [tags.get(key) == value] *)
Definition tag_is (tags : gmap string string) (key value : string) : bool :=
  bool_decide (tags !! key = Some value).

(** [key in tags] *)
Definition has_tag (tags : gmap string string) (key : string) : bool :=
  bool_decide (is_Some (tags !! key)).

(** Truth value of [tags.get(key)]: the key is there with a non-empty
    value. *)
Definition tag_truthy (tags : gmap string string) (key : string) : bool :=
  match tags !! key with
  | Some v => PyStr.truthy v
  | None => false
  end.

Definition determine_category (tags : gmap string string) : string :=
  if tag_is tags "amenity" "restaurant" then "restaurant"
  else if tag_is tags "amenity" "cafe" then "cafe"
  else if tag_is tags "tourism" "museum" then "museum"
  else if tag_is tags "tourism" "hotel" then "hotel"
  else if tag_is tags "tourism" "attraction" then "attraction"
  else if tag_is tags "amenity" "place_of_worship" then "religious_site"
  else if tag_is tags "leisure" "park" then "park"
  else if has_tag tags "historic" then "historic_site"
  else if tag_is tags "amenity" "nightclub" then "nightclub"
  else if tag_is tags "amenity" "bar" || tag_is tags "amenity" "pub" then "bar"
  else if tag_is tags "shop" "clothes" || tag_is tags "shop" "fashion"
          || tag_is tags "shop" "shoes" then "clothing_store"
  else if tag_is tags "shop" "mall" || tag_is tags "shop" "department_store"
       then "shopping_mall"
  else if tag_truthy tags "shop" then "shop"
  else "other".

(** The elements the Overpass query of [build_overpass_query] asks for:
    one statement per line of the query, a node or way matching any of
    them is returned. *)
Definition selected_by_query (tags : gmap string string) : bool :=
  tag_is tags "amenity" "restaurant"
  || tag_is tags "amenity" "cafe"
  || tag_is tags "tourism" "museum"
  || tag_is tags "tourism" "hotel"
  || tag_is tags "tourism" "attraction"
  || tag_is tags "amenity" "place_of_worship"
  || tag_is tags "leisure" "park"
  || has_tag tags "historic"
  || tag_is tags "amenity" "nightclub"
  || tag_is tags "amenity" "bar"
  || tag_is tags "amenity" "pub"
  || tag_is tags "shop" "clothes"
  || tag_is tags "shop" "mall"
  || tag_is tags "shop" "department_store"
  || tag_is tags "shop" "shoes"
  || tag_is tags "shop" "fashion".

End Osm.

(** ** Review templates and document texts, [data/generate_reviews.py] *)

Module Reviews.

(** The keys of the dict [REVIEW_TEMPLATES]; any other category gets
    [DEFAULT_TEMPLATES]. *)
Definition REVIEW_TEMPLATES_keys : list string :=
  [ "restaurant"; "cafe"; "museum"; "hotel"; "religious_site"; "attraction";
    "park"; "historic_site"; "nightclub"; "bar"; "clothing_store";
    "shopping_mall" ].

(** [category in REVIEW_TEMPLATES]: [REVIEW_TEMPLATES.get(category,
    DEFAULT_TEMPLATES)] finds templates of the category's own. *)
Definition has_own_templates (category : string) : bool :=
  bool_decide (category ∈ REVIEW_TEMPLATES_keys).

(** One generated review; the date plays no part in the document text. *)
Record Review := {
  rv_rating : Z;
  rv_text : string;
  rv_date : string
}.

(** The dict under [poi["review_data"]]. *)
Record ReviewData := {
  rd_reviews : option (list Review);
  rd_average_rating : option Number;
  rd_total_reviews : option Z
}.

(** A POI dict.  The keys read with [poi[...]] are always there for a POI
    that [fetch_osm_data] built; the keys read with [.get] may be absent.
    The keys of the nested [address] and [contact] dicts are listed
    directly: a missing dict is the same as all of its keys missing. *)
Record Poi := {
  poi_id : Z;
  poi_name : string;
  poi_category : string;
  poi_lat : float;
  poi_lon : float;
  poi_name_en : option string;
  poi_street : option string;
  poi_housenumber : option string;
  poi_opening_hours : option string;
  poi_cuisine : option string;
  poi_description : option string;
  poi_website : option string;
  poi_phone : option string;
  poi_review_data : option ReviewData;
  poi_document_text : option string
}.

(** [str(i)] for an integer. *)
Definition str_of_Z (z : Z) : string := NilZero.string_of_int (Z.to_int z).

(** [s.replace(old, new)] for a one-character [old]. *)
Fixpoint replace_char (old : ascii) (new : string) (s : string) : string :=
  match s with
  | "" => ""
  | String c s' =>
      if Ascii.eqb c old then new ++ replace_char old new s'
      else String c (replace_char old new s')
  end.

(** Truth value of [d.get(key)] for a string value. *)
Definition present (v : option string) : bool :=
  match v with
  | Some s => PyStr.truthy s
  | None => false
  end.

Section DocumentText.

(** [str(x)] of a float, as the f-string prints the average rating. *)
Context (str_float : float -> string).

Definition str_number (n : Number) : string :=
  match n with
  | NInt z => str_of_Z z
  | NFloat f => str_float f
  end.

(** The entries [create_document_text] appends for the review data. *)
Definition review_parts (review_data : option ReviewData) : list string :=
  match review_data with
  | None => []
  | Some rd =>
      match rd_reviews rd with
      | None | Some [] => []
      | Some reviews =>
          let avg := default (NInt 0) (rd_average_rating rd) in
          let total := default 0%Z (rd_total_reviews rd) in
          ("Average rating: " ++ str_number avg ++ "/5 based on "
             ++ str_of_Z total ++ " reviews.")
          :: ((fun review =>
                 "Review (" ++ str_of_Z (rv_rating review) ++ "/5): "
                   ++ PyStr.dq ++ rv_text review ++ PyStr.dq)
                <$> take 2 reviews)
      end
  end.

(** [create_document_text]; the city name in the first sentence is
    written as its UTF-8 bytes. *)
Definition create_document_text (poi : Poi) : string :=
  let parts : list string :=
    concat
      [ [poi_name poi ++ " is a " ++ replace_char "_" " " (poi_category poi)
           ++ " in Częstochowa, Poland."];
        (if present (poi_name_en poi)
            && negb (String.eqb (default "" (poi_name_en poi)) (poi_name poi))
         then ["It is also known as " ++ default "" (poi_name_en poi) ++ "."]
         else []);
        (if present (poi_street poi)
         then ["It is located at "
                 ++ (default "" (poi_street poi)
                       ++ (if present (poi_housenumber poi)
                           then " " ++ default "" (poi_housenumber poi)
                           else ""))
                 ++ "."]
         else []);
        (if present (poi_opening_hours poi)
         then ["Opening hours: " ++ default "" (poi_opening_hours poi) ++ "."]
         else []);
        (if present (poi_cuisine poi)
         then ["The cuisine type is "
                 ++ replace_char "_" " "
                      (replace_char ";" ", " (default "" (poi_cuisine poi)))
                 ++ "."]
         else []);
        (if present (poi_description poi)
         then [default "" (poi_description poi)] else []);
        (if present (poi_website poi)
         then ["Website: " ++ default "" (poi_website poi)] else []);
        (if present (poi_phone poi)
         then ["Phone: " ++ default "" (poi_phone poi)] else []);
        review_parts (poi_review_data poi) ] in
  PyStr.join " " parts.

(** What [enrich_pois_with_reviews] does to one POI, given the review
    data generated for it. *)
Definition enrich (review_data : ReviewData) (poi : Poi) : Poi :=
  let reviewed :=
    {| poi_id := poi_id poi; poi_name := poi_name poi;
       poi_category := poi_category poi; poi_lat := poi_lat poi;
       poi_lon := poi_lon poi; poi_name_en := poi_name_en poi;
       poi_street := poi_street poi; poi_housenumber := poi_housenumber poi;
       poi_opening_hours := poi_opening_hours poi;
       poi_cuisine := poi_cuisine poi; poi_description := poi_description poi;
       poi_website := poi_website poi; poi_phone := poi_phone poi;
       poi_review_data := Some review_data;
       poi_document_text := poi_document_text poi |} in
  {| poi_id := poi_id poi; poi_name := poi_name poi;
     poi_category := poi_category poi; poi_lat := poi_lat poi;
     poi_lon := poi_lon poi; poi_name_en := poi_name_en poi;
     poi_street := poi_street poi; poi_housenumber := poi_housenumber poi;
     poi_opening_hours := poi_opening_hours poi;
     poi_cuisine := poi_cuisine poi; poi_description := poi_description poi;
     poi_website := poi_website poi; poi_phone := poi_phone poi;
     poi_review_data := Some review_data;
     poi_document_text := Some (create_document_text reviewed) |}.

End DocumentText.

End Reviews.

(** ** Indexing, [VectorStore.index_documents] *)

Module Indexing.

Import Reviews.

(** The three lists the first loop of [index_documents] fills. *)
Record Prepared := {
  ids : list string;
  documents : list string;
  metadatas : list Metadata
}.

Definition metadata_of (poi : Poi) : Metadata :=
  {| md_name := Some (poi_name poi);
     md_category := Some (poi_category poi);
     md_lat := Some (poi_lat poi);
     md_lon := Some (poi_lon poi);
     md_rating :=
       Some (default (NInt 0)
               (poi_review_data poi ≫= rd_average_rating)) |}.

(** One round of [for poi in pois]. *)
Definition prepare_step (acc : Prepared) (poi : Poi) : Prepared :=
  let doc_text := default "" (poi_document_text poi) in
  if negb (PyStr.truthy doc_text) then acc
  else {| ids := (ids acc ++ [str_of_Z (poi_id poi)])%list;
          documents := (documents acc ++ [doc_text])%list;
          metadatas := (metadatas acc ++ [metadata_of poi])%list |}.

Definition prepare (pois : list Poi) : Prepared :=
  foldl prepare_step {| ids := []; documents := []; metadatas := [] |} pois.

Definition batch_size : nat := 100.

(** [range(0, stop, step)] for a positive [step]: the multiples of
    [step] below [stop]. *)
Definition range_step (stop step : nat) : list nat :=
  (fun k => k * step) <$> seq 0 ((stop + step - 1) / step).

(** [l[i:j]] for [i <= j] *)
Definition slice {A} (l : list A) (i j : nat) : list A := take (j - i) (drop i l).

(** The calls of [index_documents] that change the collection
    ([collection.count()] is only read). *)
Inductive CollectionCall :=
| DeleteCollection
| CreateCollection
| Add (ids : list string) (documents : list string)
      (embeddings : list (list float)) (metadatas : list Metadata).

(** The loop [for i in range(0, len(ids), batch_size)]. *)
Definition add_calls (embeddings : list (list float)) (p : Prepared)
  : list CollectionCall :=
  (fun i =>
     let end_idx := Nat.min (i + batch_size) (length (ids p)) in
     Add (slice (ids p) i end_idx) (slice (documents p) i end_idx)
         (slice embeddings i end_idx) (slice (metadatas p) i end_idx))
    <$> range_step (length (ids p)) batch_size.

(** [index_documents], as the changing calls it makes in order: [count]
    is what [collection.count()] returns when it starts, [get_embeddings]
    the embedding provider. *)
Definition index_documents (get_embeddings : list string -> list (list float))
    (count : nat) (pois : list Poi) (force_reindex : bool)
  : list CollectionCall :=
  if (0 <? count)%nat && negb force_reindex then []
  else
    ((if force_reindex && (0 <? count)%nat
      then [DeleteCollection; CreateCollection] else [])
     ++ (let p := prepare pois in add_calls (get_embeddings (documents p)) p))%list.

(** The ids handed to the collection by the [Add] calls, in order. *)
Definition added_ids (calls : list CollectionCall) : list string :=
  calls ≫= (fun c => match c with
                      | Add ids _ _ _ => ids
                      | _ => []
                      end).

Definition added_documents (calls : list CollectionCall) : list string :=
  calls ≫= (fun c => match c with
                      | Add _ documents _ _ => documents
                      | _ => []
                      end).

Definition added_metadatas (calls : list CollectionCall) : list Metadata :=
  calls ≫= (fun c => match c with
                      | Add _ _ _ metadatas => metadatas
                      | _ => []
                      end).

Definition added_embeddings (calls : list CollectionCall) : list (list float) :=
  calls ≫= (fun c => match c with
                      | Add _ _ embeddings _ => embeddings
                      | _ => []
                      end).

(** A POI has a non-empty document text. *)
Definition has_text (poi : Poi) : bool :=
  PyStr.truthy (default "" (poi_document_text poi)).

End Indexing.

(** ** Evaluation, [evaluation/metrics.py] *)

Module Metrics.

(** [c.lower()] for one character of the Latin-1 range. *)
Definition lower_char (c : ascii) : ascii :=
  let n := N_of_ascii c in
  if ((65 <=? n) && (n <=? 90)
      || (192 <=? n) && (n <=? 222) && negb (n =? 215))%N
  then ascii_of_N (n + 32)
  else c.

(** [s.lower()] *)
Fixpoint lower (s : string) : string :=
  match s with
  | "" => ""
  | String c s' => String (lower_char c) (lower s')
  end.

(** [sub in s] *)
Fixpoint contains (s sub : string) : bool :=
  PyStr.startswith s sub
  || match s with
     | "" => false
     | String _ s' => contains s' sub
     end.

(** [sum(1 for kw in expected_keywords if kw.lower() in answer_lower)] *)
Definition keyword_matches (answer : string) (expected_keywords : list string)
  : nat :=
  length (filter (fun kw => contains (lower answer) (lower kw) = true)
                 expected_keywords).

(** A count as the float that true division makes of it. *)
Definition float_of_nat (n : nat) : float :=
  PrimFloat.of_uint63 (Uint63.of_Z (Z.of_nat n)).

Definition keyword_overlap_score (answer : string)
    (expected_keywords : list string) : float :=
  if negb (PyStr.truthy answer)
     || match expected_keywords with [] => true | _ => false end
  then 0%float
  else (float_of_nat (keyword_matches answer expected_keywords)
        / float_of_nat (length expected_keywords))%float.

(** One entry of [EvaluationReport.results]; the metrics dict is kept as
    it is handed in. *)
Record Result (M : Type) := {
  res_question : string;
  res_answer : string;
  res_metrics : M
}.
Arguments res_question {M} _.
Arguments res_answer {M} _.
Arguments res_metrics {M} _.

(** [EvaluationReport.add_result] *)
Definition add_result {M : Type} (results : list (Result M))
    (question answer : string) (metrics : M) : list (Result M) :=
  (results
   ++ [ {| res_question := question;
           res_answer := if (200 <? String.length answer)%nat
                         then PyStr.take 200 answer ++ "..."
                         else answer;
           res_metrics := metrics |} ])%list.

End Metrics.

(** ** Records stored without metadata *)

(** [index_documents] stores a five-key metadata dict with every record,
    and the definitions above read the pipeline on such a collection.
    The collection itself is open to any client: [collection.add] takes a
    record without metadata, and [collection.query] and [collection.get]
    then return [None] in its place in the metadata list.  This module
    reads the same lines of [search], [query], [query_stream] and
    [get_all_categories] with that entry made explicit. *)
Module Unguarded.

(** [results["documents"][0]], [results["metadatas"][0]] and
    [results["distances"][0]] of an answer of [collection.query] that
    holds all three lists. *)
Record Results := {
  raw_documents : list string;
  raw_metadatas : list (option Metadata);
  raw_distances : list float
}.

(** An entry of [formatted_results]. *)
Record Match := {
  mt_document : string;
  mt_metadata : option Metadata;
  mt_distance : float
}.

(** [l[i]] *)
Definition index {A} (l : list A) (i : nat) : PyResult A :=
  match l !! i with
  | Some x => Ok x
  | None => Raise IndexError
  end.

(** The loop of [search]: it passes [results["metadatas"][0][i]]
    through as it is. *)
Fixpoint search_loop (results : Results) (i : nat) (docs : list string)
  : PyResult (list Match) :=
  match docs with
  | [] => Ok []
  | doc :: rest =>
      metadata ← index (raw_metadatas results) i;
      distance ← index (raw_distances results) i;
      formatted ← search_loop results (S i) rest;
      Ok ({| mt_document := doc; mt_metadata := metadata;
             mt_distance := distance |} :: formatted)
  end.

(** [doc["metadata"].get(key, default)]: [None] has no attribute [get]. *)
Definition get {A} (metadata : option Metadata) (key : Metadata -> option A)
    (default_value : A) : PyResult A :=
  match metadata with
  | None => Raise AttributeError
  | Some md => Ok (default default_value (key md))
  end.

(** The dict display of [query], lines 111-116. *)
Definition source_entry (doc : Match) : PyResult Source :=
  name ← get (mt_metadata doc) md_name "Unknown";
  category ← get (mt_metadata doc) md_category "N/A";
  rating ← get (mt_metadata doc) md_rating (NInt 0);
  Ok {| src_name := name; src_category := category; src_rating := rating;
        src_relevance_score := (1 - mt_distance doc)%float |}.

(** The dict display of [query_stream], lines 137-141. *)
Definition stream_source_entry (doc : Match) : PyResult StreamSource :=
  name ← get (mt_metadata doc) md_name "Unknown";
  category ← get (mt_metadata doc) md_category "N/A";
  rating ← get (mt_metadata doc) md_rating (NInt 0);
  Ok {| ss_name := name; ss_category := category; ss_rating := rating |}.

(** A list comprehension whose element expression may raise. *)
Fixpoint comprehension {A B} (f : A -> PyResult B) (l : list A)
  : PyResult (list B) :=
  match l with
  | [] => Ok []
  | x :: rest =>
      y ← f x;
      ys ← comprehension f rest;
      Ok (y :: ys)
  end.

Definition sources (retrieved_docs : list Match) : PyResult (list Source) :=
  comprehension source_entry retrieved_docs.

Definition stream_sources (retrieved_docs : list Match)
  : PyResult (list StreamSource) :=
  comprehension stream_source_entry retrieved_docs.

(** One round of the loop of [get_all_categories]: its guard
    [if metadata and "category" in metadata] skips [None]. *)
Definition categories_step (categories : gset string)
    (metadata : option Metadata) : gset string :=
  match metadata with
  | None => categories
  | Some md => VectorStore.categories_step categories md
  end.

Definition categories_loop (metadatas : list (option Metadata)) : gset string :=
  foldl categories_step ∅ metadatas.

(** A match of the pipeline above: its metadata is a dict. *)
Definition of_doc (doc : RetrievedDoc) : Match :=
  {| mt_document := doc_document doc;
     mt_metadata := Some (doc_metadata doc);
     mt_distance := doc_distance doc |}.

(** The answer of a collection that holds the monastery's record and a
    record added with an id, a text and an embedding only. *)
Definition bench_results : Results :=
  {| raw_documents := [sd_document Demo.jasna_gora;
                       "A bench under the lime trees."];
     raw_metadatas := [Some (sd_metadata Demo.jasna_gora); None];
     raw_distances := [0.25%float; 0.5%float] |}.

End Unguarded.

(** ** Sample POIs *)

Module Samples.

Import Reviews.

(** A cafe as [fetch_osm_data] builds it, with OSM id [n]; [text] is its
    document text, if it has one. *)
Definition cafe (n : Z) (text : option string) : Poi :=
  {| poi_id := n; poi_name := "Cafe Belg";
     poi_category := "cafe";
     poi_lat := 50.8125%float; poi_lon := 19.125%float;
     poi_name_en := Some "Cafe Belg";
     poi_street := Some "Aleja NMP"; poi_housenumber := Some "32";
     poi_opening_hours := Some ""; poi_cuisine := Some "coffee_shop;cake";
     poi_description := Some ""; poi_website := Some "";
     poi_phone := Some "";
     poi_review_data := None;
     poi_document_text := text |}.

Definition two_reviews : ReviewData :=
  {| rd_reviews :=
       Some [ {| rv_rating := 5; rv_text := "Perfect spot for coffee!";
                 rv_date := "2024-05-17" |};
              {| rv_rating := 4; rv_text := "Good selection of teas.";
                 rv_date := "2023-11-02" |};
              {| rv_rating := 3; rv_text := "Decent coffee.";
                 rv_date := "2025-01-28" |} ];
     rd_average_rating := Some (NFloat 4%float);
     rd_total_reviews := Some 3%Z |}.

(** [str(4.0)]; the sample worlds print no other float. *)
Definition str_float (x : float) : string := "4.0".

End Samples.

(** * Properties *)

(** ** Python string primitives *)

Lemma take_is_prefix (n : nat) (s : string) :
  PyStr.startswith s (PyStr.take n s) = true.
Proof.
  revert s. induction n as [|n IH]; intros [|c s]; cbn; auto.
  rewrite Ascii.eqb_refl. apply IH.
Qed.

Lemma take_length (n : nat) (s : string) :
  String.length (PyStr.take n s) = Nat.min n (String.length s).
Proof.
  revert s. induction n as [|n IH]; intros [|c s]; cbn; auto.
Qed.

(** ** [build_context] *)

Lemma build_context_loop_imap (docs : list RetrievedDoc) :
  forall (i : nat) (acc : list string),
    build_context_loop (S i) acc docs
    = (acc ++ imap (fun j => context_part (i + j)) docs)%list.
Proof.
  induction docs as [|d docs IH]; intros i acc; cbn.
  - rewrite app_nil_r. reflexivity.
  - rewrite IH, <- app_assoc. cbn. unfold context_part at 2.
    rewrite Nat.add_0_r. do 2 f_equal.
    apply imap_ext. intros j x _. cbn. f_equal. lia.
Qed.

Lemma build_context_parts (docs : list RetrievedDoc) :
  build_context docs = PyStr.join (PyStr.nl ++ PyStr.nl) (imap context_part docs).
Proof.
  destruct docs as [|d docs]; [reflexivity|].
  unfold build_context. rewrite (build_context_loop_imap (d :: docs) 0 []).
  reflexivity.
Qed.

Lemma build_context_nonempty (docs : list RetrievedDoc) :
  build_context docs <> "" <-> docs <> [].
Proof.
  split.
  - intros H ->. apply H. reflexivity.
  - intros H. rewrite build_context_parts.
    destruct docs as [|d [|d' docs]]; [congruence| |]; cbn; discriminate.
Qed.

(** ** Retrieval on the modelled collection *)

Section Retrieval.

Context (W : World).

Lemma search_loop_hits (query : string) (hs : list StoredDoc) :
  forall (rest : list StoredDoc) (i : nat),
    drop i hs = rest ->
    VectorStore.search_loop
      {| qr_ids := [sd_id <$> hs];
         qr_documents := [sd_document <$> hs];
         qr_metadatas := [sd_metadata <$> hs];
         qr_distances := [embedding_distance W query <$> hs] |}
      i (sd_document <$> rest)
    = Ok (retrieved_of W query <$> rest).
Proof.
  induction rest as [|d rest IH]; intros i Hdrop; [reflexivity|].
  assert (Hi : hs !! i = Some d).
  { rewrite <- (Nat.add_0_r i), <- lookup_drop, Hdrop. reflexivity. }
  assert (Hrest : drop (S i) hs = rest).
  { rewrite (drop_S _ _ _ Hi) in Hdrop. congruence. }
  cbn [fmap list_fmap VectorStore.search_loop].
  cbn [qr_ids qr_metadatas qr_distances VectorStore.index0].
  rewrite !list_lookup_fmap, Hi. cbn.
  specialize (IH (S i) Hrest). cbn [fmap] in IH. rewrite IH. reflexivity.
Qed.

(** On an existing collection and a positive [top_k], [search] raises
    nothing and formats the matches in the order the collection ranks
    them. *)
Lemma search_ok (docs : list StoredDoc) (query : string) (top_k : Z)
    (category : option string) :
  collection W = Some docs -> (0 < top_k)%Z ->
  retrieve W query top_k category
  = Ok (retrieved_of W query <$> hits W docs query top_k category).
Proof.
  intros Hc Hk. unfold retrieve, VectorStore.search, Chroma.query.
  rewrite Hc. destruct (Z.leb_spec top_k 0) as [?|_]; [lia|].
  cbn [mbind PyResult_bind qr_documents].
  apply (search_loop_hits query (hits W docs query top_k category) _ 0).
  reflexivity.
Qed.

Lemma search_missing (query : string) (top_k : Z) (category : option string) :
  collection W = None ->
  retrieve W query top_k category
  = Raise (ChromaError "Collection does not exist.").
Proof.
  intros Hc. unfold retrieve, VectorStore.search, Chroma.query.
  rewrite Hc. reflexivity.
Qed.

Lemma search_empty (query : string) (top_k : Z) (category : option string) :
  collection W = Some [] -> (0 < top_k)%Z ->
  retrieve W query top_k category = Ok [].
Proof.
  intros Hc Hk. rewrite (search_ok [] query top_k category Hc Hk).
  unfold hits. cbn. rewrite take_nil. reflexivity.
Qed.

End Retrieval.

(** ** How the calls move the state *)

Section StateLemmas.

Context (W : World).

Lemma check_llm_cached (s : State) (b : bool) :
  _llm_available s = Some b -> check_llm W s = (b, s).
Proof. intros H. unfold check_llm. rewrite H. reflexivity. Qed.

Lemma check_llm_stores (s : State) :
  _llm_available (snd (check_llm W s)) = Some (fst (check_llm W s)).
Proof.
  unfold check_llm. destruct (_llm_available s) as [b|] eqn:E; cbn; auto.
Qed.

(** A fresh instance whose probe meets a [RequestException] sees the
    language model as unreachable. *)
Lemma check_llm_daemon_unreachable (s : State) (msg : string) :
  _llm_available s = None ->
  ollama_tags W (http_requests s) = LLM.TagsRequestException msg ->
  fst (check_llm W s) = false.
Proof.
  intros Hnone Htags. unfold check_llm. rewrite Hnone. cbn.
  rewrite Htags. reflexivity.
Qed.

Lemma check_llm_at_generation (s : State) :
  fst (check_llm W (at_generation W s)) = fst (check_llm W s).
Proof. unfold check_llm. cbn. destruct (_llm_available s); reflexivity. Qed.

(** [generate_answer], spelled out by the availability flag it sees. *)
Lemma generate_answer_unavailable (question context : string) (s : State) :
  fst (check_llm W s) = false ->
  fst (generate_answer W question context s) = _fallback_answer question context.
Proof.
  unfold generate_answer. destruct (check_llm W s) as [b s1]; cbn.
  intros ->. reflexivity.
Qed.

Lemma generate_answer_available (question context : string) (s : State) :
  fst (check_llm W s) = true ->
  fst (generate_answer W question context s)
  = LLM.generate
      (ollama_generate W (http_requests (snd (check_llm W s)))
         (LLM.payload (llm_model s) question context false)).
Proof.
  unfold generate_answer, check_llm.
  destruct (_llm_available s) as [[|]|] eqn:E; cbn; try discriminate; auto.
  destruct (LLM.is_available _ _); cbn; [reflexivity | discriminate].
Qed.

(** The whole of [query] once retrieval has returned [docs]. *)
Lemma query_returns (question : string) (top_k : Z) (category : option string)
    (return_sources : bool) (s : State) (docs : list RetrievedDoc) :
  retrieve W question top_k category = Ok docs ->
  query W question top_k category return_sources s
  = (Ok {| answer := fst (generate_answer W question (build_context docs)
                            (at_generation W s));
           metadata :=
             {| total_time_ms :=
                  ms W (clock W (5 + clock_reads s) - clock W (clock_reads s))%float;
                retrieval_time_ms :=
                  ms W (clock W (2 + clock_reads s) - clock W (1 + clock_reads s))%float;
                generation_time_ms :=
                  ms W (clock W (4 + clock_reads s) - clock W (3 + clock_reads s))%float;
                documents_retrieved := length docs;
                llm_available := fst (check_llm W s) |};
           sources := if return_sources then Some (source_of <$> docs) else None |},
     after_query W question docs s).
Proof.
  intros Hr. unfold query, after_query, at_generation, tick.
  unfold mbind, M_bind, mret, M_ret, lift_total, lift_result. cbn.
  rewrite Hr. unfold generate_answer, check_llm. cbn.
  destruct (_llm_available s) as [[|]|] eqn:E; cbn; try reflexivity.
  destruct (LLM.is_available _ _); cbn; reflexivity.
Qed.

(** An exception of the retrieval step leaves [query] as it is. *)
Lemma query_raises (question : string) (top_k : Z) (category : option string)
    (return_sources : bool) (s : State) (e : Exn) :
  retrieve W question top_k category = Raise e ->
  query W question top_k category return_sources s = (Raise e, tick W (tick W s)).
Proof.
  intros Hr. unfold query, tick.
  unfold mbind, M_bind, mret, M_ret, lift_total, lift_result. cbn.
  rewrite Hr. reflexivity.
Qed.

End StateLemmas.

(** ** Source labels *)

Example source_labels_are_decimal :
  PyStr.of_nat 1 = "1" /\ PyStr.of_nat 10 = "10" /\ PyStr.of_nat 123 = "123".
Proof. repeat split; reflexivity. Qed.

(** ** The fallback answer (claim C1) *)

(** C1, as the code has it: when retrieval produced a non-empty context
    and the availability check says the language model is unreachable,
    [query] returns the fixed preamble, then the first 1000 characters of
    the context (all of it when it is shorter), then the three
    characters [...].  The middle portion is a prefix of the context of
    length [min 1000 (len context)]. *)
Theorem fallback_answer_is_preamble_excerpt_ellipsis
    (W : World) (question : string) (top_k : Z) (category : option string)
    (return_sources : bool) (s : State) (docs : list RetrievedDoc) :
  retrieve W question top_k category = Ok docs ->
  build_context docs <> "" ->
  fst (check_llm W s) = false ->
  exists (r : Response) (s' : State),
    query W question top_k category return_sources s = (Ok r, s')
    /\ answer r
       = FALLBACK_PREAMBLE ++ PyStr.take 1000 (build_context docs) ++ "..."
    /\ PyStr.startswith (build_context docs)
         (PyStr.take 1000 (build_context docs)) = true
    /\ String.length (PyStr.take 1000 (build_context docs))
       = Nat.min 1000 (String.length (build_context docs)).
Proof.
  intros Hr Hctx Hdown.
  eexists _, _. split; [apply (query_returns W _ _ _ _ _ _ Hr)|].
  cbn [answer]. split.
  - rewrite generate_answer_unavailable
      by (rewrite check_llm_at_generation; exact Hdown).
    unfold _fallback_answer.
    destruct (build_context docs) as [|c ctx]; [congruence|reflexivity].
  - split; [apply take_is_prefix | apply take_length].
Qed.

Lemma fallback_answer_witness :
  exists (r : Response) (s' : State),
    query Demo.W_down Demo.question 3 None true init = (Ok r, s')
    /\ answer r
       = FALLBACK_PREAMBLE
         ++ "[Source 1]: Jasna Gora Monastery houses the Black Madonna painting."
         ++ PyStr.nl ++ PyStr.nl
         ++ "[Source 2]: A quiet park by the river." ++ "...".
Proof.
  destruct (fallback_answer_is_preamble_excerpt_ellipsis
              Demo.W_down Demo.question 3 None true init
              (retrieved_of Demo.W_down Demo.question
                 <$> [Demo.jasna_gora; Demo.unlabelled]))
    as (r & s' & Hq & Ha & _).
  - vm_compute. reflexivity.
  - vm_compute. discriminate.
  - vm_compute. reflexivity.
  - exists r, s'. split; [exact Hq|]. rewrite Ha. vm_compute. reflexivity.
Defined.

(** The claim as the spec words it fails: the answer is longer than the
    preamble plus a prefix of the context, because the code appends an
    ellipsis; and the excerpt is not 1000 characters long when the
    context is shorter. *)
Lemma fallback_answer_not_preamble_plus_prefix :
  exists (r : Response) (s' : State) (docs : list RetrievedDoc),
    retrieve Demo.W_down Demo.question 3 None = Ok docs
    /\ build_context docs <> ""
    /\ fst (check_llm Demo.W_down init) = false
    /\ query Demo.W_down Demo.question 3 None false init = (Ok r, s')
    /\ String.length (build_context docs) = 107
    /\ (forall p : string,
          PyStr.startswith (build_context docs) p = true ->
          answer r <> FALLBACK_PREAMBLE ++ p).
Proof.
  eexists _, _, _. split; [vm_compute; reflexivity|].
  split; [vm_compute; discriminate|].
  split; [vm_compute; reflexivity|].
  split; [vm_compute; reflexivity|].
  split; [vm_compute; reflexivity|].
  intros p Hp Heq. cbn [answer] in Heq.
  apply (inj (String.app FALLBACK_PREAMBLE)) in Heq. subst p.
  vm_compute in Hp. discriminate.
Qed.

(** ** An empty index (claim C2) *)

Lemma check_llm_requests_at_generation (W : World) (s : State) :
  http_requests (snd (check_llm W (at_generation W s)))
  = http_requests (snd (check_llm W s)).
Proof. unfold check_llm. cbn. destruct (_llm_available s); reflexivity. Qed.

(** C2, as the code has it: on an index without documents (and a
    positive [top_k]) [query] returns with [documents_retrieved = 0]; the
    answer is the fixed no-information message when the availability check
    says the language model is unreachable, and otherwise whatever the
    client produces from the daemon's reply to the bare question. *)
Theorem empty_index_query
    (W : World) (question : string) (top_k : Z) (category : option string)
    (return_sources : bool) (s : State) :
  collection W = Some [] ->
  (0 < top_k)%Z ->
  exists (r : Response) (s' : State),
    query W question top_k category return_sources s = (Ok r, s')
    /\ documents_retrieved (metadata r) = 0
    /\ llm_available (metadata r) = fst (check_llm W s)
    /\ (fst (check_llm W s) = false -> answer r = NO_INFO_MESSAGE)
    /\ (fst (check_llm W s) = true ->
        LLM.p_prompt (LLM.payload (llm_model s) question "" false) = question
        /\ answer r
           = LLM.generate
               (ollama_generate W (http_requests (snd (check_llm W s)))
                  (LLM.payload (llm_model s) question "" false))).
Proof.
  intros Hc Hk.
  pose proof (search_empty W question top_k category Hc Hk) as Hr.
  eexists _, _. split; [apply (query_returns W _ _ _ _ _ _ Hr)|].
  cbn [answer metadata documents_retrieved llm_available length build_context].
  split; [reflexivity|]. split; [reflexivity|]. split.
  - intros Hdown. rewrite generate_answer_unavailable
      by (rewrite check_llm_at_generation; exact Hdown).
    reflexivity.
  - intros Hup. split; [reflexivity|].
    rewrite generate_answer_available
      by (rewrite check_llm_at_generation; exact Hup).
    rewrite check_llm_requests_at_generation. reflexivity.
Qed.

Lemma empty_index_query_witness :
  exists (r : Response) (s' : State),
    query Demo.W_empty_down Demo.question 3 None false init = (Ok r, s')
    /\ documents_retrieved (metadata r) = 0
    /\ answer r = NO_INFO_MESSAGE.
Proof.
  destruct (empty_index_query Demo.W_empty_down Demo.question 3 None false init)
    as (r & s' & Hq & Hn & _ & Hdown & _).
  - reflexivity.
  - lia.
  - exists r, s'. split; [exact Hq|]. split; [exact Hn|].
    apply Hdown. vm_compute. reflexivity.
Defined.

(** The claim as the spec words it fails when the daemon is up: the
    question goes to the language model without context, and its reply is
    the answer. *)
Lemma empty_index_answer_from_language_model :
  exists (r : Response) (s' : State),
    Chroma.count Demo.W_empty_up = Ok 0
    /\ query Demo.W_empty_up Demo.question 3 None false init = (Ok r, s')
    /\ documents_retrieved (metadata r) = 0
    /\ answer r = "Welcome to Czestochowa!"
    /\ answer r <> NO_INFO_MESSAGE.
Proof.
  eexists _, _. split; [reflexivity|].
  split; [vm_compute; reflexivity|].
  split; [reflexivity|]. split; [reflexivity|].
  cbn [answer]. discriminate.
Qed.

(** ** Failures of the collaborators (claim C3) *)

(** C3, as the code has it: the orchestrator has no handler of its own.
    A collection that no longer exists makes [query] raise the
    collection's exception.  On an existing collection (and a positive
    [top_k]): when the availability check says the language model is
    unreachable, as it does when the probe request of a fresh pipeline
    meets a [RequestException], [query] returns the fallback answer; when
    the check says it is reachable and the generate request meets a
    [RequestException] or an HTTP error status, [query] returns a result
    whose answer is the text [Error communicating with Ollama: ...] and
    not the fallback answer. *)
Theorem query_failure_handling
    (W : World) (question : string) (top_k : Z) (category : option string)
    (return_sources : bool) (s : State) :
  (collection W = None ->
   query W question top_k category return_sources s
   = (Raise (ChromaError "Collection does not exist."), tick W (tick W s)))
  /\ (forall stored : list StoredDoc,
        collection W = Some stored ->
        (0 < top_k)%Z ->
        (forall msg : string,
           _llm_available s = None ->
           ollama_tags W (http_requests s) = LLM.TagsRequestException msg ->
           fst (check_llm W s) = false)
        /\ (fst (check_llm W s) = false ->
            exists (r : Response) (s' : State),
              query W question top_k category return_sources s = (Ok r, s')
              /\ llm_available (metadata r) = false
              /\ answer r
                 = _fallback_answer question
                     (build_context (retrieved_of W question
                                       <$> hits W stored question top_k category)))
        /\ (forall error : string,
              fst (check_llm W s) = true ->
              (ollama_generate W (http_requests (snd (check_llm W s)))
                 (LLM.payload (llm_model s) question
                    (build_context (retrieved_of W question
                                      <$> hits W stored question top_k category))
                    false)
               = LLM.GenRequestException error
               \/ exists (status_code : Z) (response : option string),
                    LLM.is_http_error status_code = true
                    /\ ollama_generate W (http_requests (snd (check_llm W s)))
                         (LLM.payload (llm_model s) question
                            (build_context
                               (retrieved_of W question
                                  <$> hits W stored question top_k category))
                            false)
                       = LLM.GenHttp status_code error response) ->
              exists (r : Response) (s' : State),
                query W question top_k category return_sources s = (Ok r, s')
                /\ llm_available (metadata r) = true
                /\ answer r = "Error communicating with Ollama: " ++ error)).
Proof.
  split.
  - intros Hc. apply query_raises, search_missing, Hc.
  - intros stored Hc Hk.
    pose proof (search_ok W stored question top_k category Hc Hk) as Hr.
    split; [intros msg; apply check_llm_daemon_unreachable|]. split.
    + intros Hdown. eexists _, _.
      split; [apply (query_returns W _ _ _ _ _ _ Hr)|].
      cbn [answer metadata llm_available]. split; [exact Hdown|].
      apply generate_answer_unavailable.
      rewrite check_llm_at_generation. exact Hdown.
    + intros error Hup Hreply. eexists _, _.
      split; [apply (query_returns W _ _ _ _ _ _ Hr)|].
      cbn [answer metadata llm_available]. split; [exact Hup|].
      rewrite generate_answer_available
        by (rewrite check_llm_at_generation; exact Hup).
      rewrite check_llm_requests_at_generation.
      change (llm_model (at_generation W s)) with (llm_model s).
      destruct Hreply as [->|(code & response & Herr & ->)];
        cbn [LLM.generate]; [reflexivity|].
      rewrite Herr. reflexivity.
Qed.

Lemma query_failure_handling_witness :
  query Demo.W_missing Demo.question 3 None false init
  = (Raise (ChromaError "Collection does not exist."),
     tick Demo.W_missing (tick Demo.W_missing init))
  /\ (exists (r : Response) (s' : State),
        query Demo.W_down Demo.question 3 None false init = (Ok r, s')
        /\ answer r
           = _fallback_answer Demo.question
               (build_context (retrieved_of Demo.W_down Demo.question
                                 <$> [Demo.jasna_gora; Demo.unlabelled])))
  /\ (exists (r : Response) (s' : State),
        query Demo.W_flaky Demo.question 3 None false init = (Ok r, s')
        /\ answer r = "Error communicating with Ollama: Connection refused").
Proof.
  split; [|split].
  - apply (query_failure_handling Demo.W_missing Demo.question 3 None false init).
    reflexivity.
  - destruct (query_failure_handling Demo.W_down Demo.question 3 None false init)
      as [_ H].
    destruct (H [Demo.jasna_gora; Demo.unlabelled]) as (Hprobe & Hdown & _);
      [reflexivity|lia|].
    destruct Hdown as (r & s' & Hq & _ & Ha).
    + apply (Hprobe Demo.refused); reflexivity.
    + exists r, s'. split; [exact Hq|]. rewrite Ha. vm_compute. reflexivity.
  - destruct (query_failure_handling Demo.W_flaky Demo.question 3 None false init)
      as [_ H].
    destruct (H [Demo.jasna_gora]) as (_ & _ & Hup); [reflexivity|lia|].
    destruct (Hup Demo.refused) as (r & s' & Hq & _ & Ha).
    + vm_compute. reflexivity.
    + left. vm_compute. reflexivity.
    + exists r, s'. split; [exact Hq|exact Ha].
Defined.

(** The claim as the spec words it fails twice: the exception of a
    missing collection reaches the caller of [query], and a transport
    error of the generate call (after the daemon had answered the
    availability probe) yields an error text, not the fallback answer. *)
Lemma query_raises_and_reports_errors :
  (exists s' : State,
     query Demo.W_missing Demo.question 3 None false init
     = (Raise (ChromaError "Collection does not exist."), s'))
  /\ (exists (r : Response) (s' : State) (docs : list RetrievedDoc),
        retrieve Demo.W_flaky Demo.question 3 None = Ok docs
        /\ query Demo.W_flaky Demo.question 3 None false init = (Ok r, s')
        /\ answer r = "Error communicating with Ollama: Connection refused"
        /\ answer r <> _fallback_answer Demo.question (build_context docs)).
Proof.
  split.
  - eexists. vm_compute. reflexivity.
  - eexists _, _, _. split; [vm_compute; reflexivity|].
    split; [vm_compute; reflexivity|]. split; [reflexivity|].
    vm_compute. discriminate.
Qed.

(** ** The event sequence of [query_stream] (claim C4) *)






(** ** The relevance score (claim C5) *)

(** C5: with [return_sources=True], the result lists one source per
    retrieved match, in retrieval order, and the relevance score of each
    is the float [1 - distance] of that match, whatever the distance. *)
Theorem relevance_score_is_one_minus_distance
    (W : World) (question : string) (top_k : Z) (category : option string)
    (s : State) (docs : list RetrievedDoc) :
  retrieve W question top_k category = Ok docs ->
  exists (r : Response) (s' : State) (srcs : list Source),
    query W question top_k category true s = (Ok r, s')
    /\ sources r = Some srcs
    /\ length srcs = length docs
    /\ forall (i : nat) (doc : RetrievedDoc),
         docs !! i = Some doc ->
         src_relevance_score <$> srcs !! i = Some (1 - doc_distance doc)%float.
Proof.
  intros Hr. eexists _, _, _.
  split; [apply (query_returns W _ _ _ _ _ _ Hr)|].
  split; [reflexivity|]. split; [apply length_fmap|].
  intros i doc Hi. rewrite list_lookup_fmap, Hi. reflexivity.
Qed.

(** A distance above one gives a negative score: nothing clamps it. *)
Lemma relevance_score_witness :
  exists (r : Response) (s' : State) (srcs : list Source),
    query Demo.W_up Demo.question 3 None true init = (Ok r, s')
    /\ sources r = Some srcs
    /\ src_relevance_score <$> srcs !! 0 = Some 0.75%float
    /\ src_relevance_score <$> srcs !! 1 = Some (-0.5)%float.
Proof.
  destruct (relevance_score_is_one_minus_distance
              Demo.W_up Demo.question 3 None init
              (retrieved_of Demo.W_up Demo.question
                 <$> [Demo.jasna_gora; Demo.unlabelled]))
    as (r & s' & srcs & Hq & Hs & _ & Hscore).
  - vm_compute. reflexivity.
  - exists r, s', srcs. split; [exact Hq|]. split; [exact Hs|]. split.
    + rewrite (Hscore 0 (retrieved_of Demo.W_up Demo.question Demo.jasna_gora))
        by reflexivity.
      vm_compute. reflexivity.
    + rewrite (Hscore 1 (retrieved_of Demo.W_up Demo.question Demo.unlabelled))
        by reflexivity.
      vm_compute. reflexivity.
Defined.

(** ** The cached availability flag (claim C6) *)

Section Cache.

Context (W : World).

Lemma cache_stable_refl (s : State) : cache_stable s s.
Proof. split; auto. Qed.


Lemma check_llm_stable (s : State) : cache_stable s (snd (check_llm W s)).
Proof.
  unfold cache_stable, probe_budget, check_llm.
  destruct (_llm_available s) as [b|] eqn:E; cbn; rewrite ?E;
    (split; [lia | intros b' Hb; try discriminate Hb; exact Hb]).
Qed.

Lemma query_stable (question : string) (top_k : Z) (category : option string)
    (return_sources : bool) (s : State) :
  cache_stable s (snd (query W question top_k category return_sources s)).
Proof.
  destruct (retrieve W question top_k category) as [docs|e] eqn:Hr.
  - rewrite (query_returns W _ _ _ _ _ _ Hr). cbn [snd].
    unfold after_query, at_generation, tick, generate_answer, check_llm.
    unfold cache_stable, probe_budget. cbn.
    destruct (_llm_available s) as [[|]|]; cbn; try (split; [lia|auto]).
    destruct (LLM.is_available _ _); cbn; (split; [lia|intros b Hb; discriminate Hb]).
  - rewrite (query_raises W _ _ _ _ _ _ Hr). cbn [snd].
    unfold tick, cache_stable, probe_budget. cbn. split; auto.
Qed.

Lemma query_stream_stable (question : string) (top_k : Z)
    (category : option string) (s : State) :
  cache_stable s (snd (query_stream W question top_k category s)).
Proof.
  unfold query_stream.
  destruct (retrieve W question top_k category) as [docs|e];
    [|apply cache_stable_refl].
  unfold check_llm, llm_generate_stream, cache_stable, probe_budget.
  destruct (_llm_available s) as [[|]|] eqn:E; cbn.
  - destruct (LLM.generate_stream _) as [chunks [e|]]; cbn;
      rewrite E; split; auto.
  - rewrite E. split; auto.
  - destruct (LLM.is_available _ _); cbn.
    + destruct (LLM.generate_stream _) as [chunks [e|]]; cbn;
        (split; [lia | intros b Hb; discriminate Hb]).
    + split; [lia | intros b Hb; discriminate Hb].
Qed.

Lemma run_call_stable (c : Call) (s : State) : cache_stable s (run_call W c s).
Proof.
  destruct c; cbn [run_call];
    auto using check_llm_stable, query_stable, query_stream_stable.
Qed.


End Cache.


Example one_probe_for_three_calls :
  availability_probes
    (run_calls Demo.W_up
       [CallQuery Demo.question 3 None true;
        CallQueryStream Demo.question 3 None;
        CallCheckLlm] init) = 1.
Proof. vm_compute. reflexivity. Qed.

(** ** The category list (claim C8) *)

Lemma md_truthy_category (m : Metadata) (c : string) :
  md_category m = Some c -> md_truthy m = true.
Proof.
  intros H. unfold md_truthy. rewrite H.
  rewrite (bool_decide_eq_true_2 (is_Some (Some c))) by eauto.
  destruct (bool_decide (is_Some (md_name m))); reflexivity.
Qed.

Lemma categories_step_elem (acc : gset string) (m : Metadata) (c : string) :
  c ∈ VectorStore.categories_step acc m <-> c ∈ acc \/ md_category m = Some c.
Proof.
  unfold VectorStore.categories_step.
  destruct (md_category m) as [c'|] eqn:E.
  - rewrite (md_truthy_category m c' E). rewrite elem_of_union, elem_of_singleton.
    split; intros [H|H]; auto; right; congruence.
  - split; [auto|]. intros [H|H]; [exact H|discriminate].
Qed.

Lemma categories_fold_elem (ms : list Metadata) :
  forall (acc : gset string) (c : string),
    c ∈ foldl VectorStore.categories_step acc ms
    <-> c ∈ acc \/ exists m : Metadata, m ∈ ms /\ md_category m = Some c.
Proof.
  induction ms as [|m ms IH]; intros acc c; cbn.
  - split; [auto|]. intros [H|(m & Hm & _)]; [exact H|].
    apply elem_of_nil in Hm. contradiction.
  - rewrite IH, categories_step_elem. split.
    + intros [[H|H]|(m' & Hm' & Hc)]; [auto| |].
      * right. exists m. split; [apply list_elem_of_here|exact H].
      * right. exists m'. split; [apply list_elem_of_further, Hm'|exact Hc].
    + intros [H|(m' & Hm' & Hc)]; [auto|].
      apply elem_of_cons in Hm' as [->|Hm']; [auto|].
      right. exists m'. auto.
Qed.

Lemma categories_loop_elem (ms : list Metadata) (c : string) :
  c ∈ VectorStore.categories_loop ms
  <-> exists m : Metadata, m ∈ ms /\ md_category m = Some c.
Proof.
  unfold VectorStore.categories_loop. rewrite categories_fold_elem.
  split; [|auto]. intros [H|H]; [|exact H].
  apply not_elem_of_empty in H. contradiction.
Qed.

Lemma sorted_is_sorted (cats : gset string) :
  Sorted String.le (VectorStore.sorted cats)
  /\ NoDup (VectorStore.sorted cats)
  /\ forall c : string, c ∈ VectorStore.sorted cats <-> c ∈ cats.
Proof.
  unfold VectorStore.sorted. split; [apply Sorted_merge_sort, _|]. split.
  - rewrite merge_sort_Permutation. apply NoDup_elements.
  - intros c. rewrite merge_sort_Permutation. apply elem_of_elements.
Qed.

(** What [get_categories] does return: it looks at the first 1000
    records of the collection only, and returns the category strings that
    occur among them, each once, in ascending order; since the result is a
    function of the collection's content alone, a second call on an
    unchanged collection returns the identical list. *)
Lemma get_categories_sorted_distinct_of_first_1000
    (W : World) (stored : list StoredDoc) :
  collection W = Some stored ->
  exists cats : list string,
    get_categories W = Ok cats
    /\ Sorted String.le cats
    /\ NoDup cats
    /\ (forall c : string,
          c ∈ cats
          <-> exists d : StoredDoc,
                d ∈ take 1000 stored /\ md_category (sd_metadata d) = Some c)
    /\ (forall W' : World,
          collection W' = collection W -> get_categories W' = Ok cats).
Proof.
  intros Hc.
  assert (Hget : forall W' : World,
             collection W' = collection W ->
             get_categories W'
             = Ok (VectorStore.sorted
                     (VectorStore.categories_loop
                        (sd_metadata <$> take 1000 stored)))).
  { intros W' HW'. unfold get_categories, VectorStore.get_all_categories,
      Chroma.get_metadatas. rewrite HW', Hc. reflexivity. }
  eexists. split; [apply Hget; reflexivity|].
  destruct (sorted_is_sorted
              (VectorStore.categories_loop (sd_metadata <$> take 1000 stored)))
    as (Hsorted & Hnodup & Helem).
  split; [exact Hsorted|]. split; [exact Hnodup|]. split; [|exact Hget].
  intros c. rewrite Helem, categories_loop_elem. split.
  - intros (m & Hm & Hcat). apply list_elem_of_fmap in Hm as (d & -> & Hd).
    exists d. auto.
  - intros (d & Hd & Hcat). exists (sd_metadata d).
    split; [apply list_elem_of_fmap; eauto|exact Hcat].
Qed.

Lemma get_categories_witness :
  get_categories Demo.W_up = Ok ["religious_site"]
  /\ get_categories Demo.W_down = Ok ["religious_site"].
Proof.
  destruct (get_categories_sorted_distinct_of_first_1000
              Demo.W_up [Demo.jasna_gora; Demo.unlabelled])
    as (cats & Hget & _ & _ & _ & Hsame); [reflexivity|].
  assert (Hcats : cats = ["religious_site"]).
  { assert (H : Ok cats = Ok ["religious_site"]) by (rewrite <- Hget; vm_compute; reflexivity).
    injection H as H. exact H. }
  subst cats. split; [exact Hget|]. apply Hsame. reflexivity.
Defined.

(** C8: the code does not keep the claim, nor its own docstrings ("Get
    all unique categories in the collection", "Get all available POI
    categories").  On a collection of 1001 records whose last record is
    the only museum, [get_categories] returns the hotels' category alone:
    a category present in the index is absent from the result. *)
Theorem get_categories_misses_late_category :
  exists stored : list StoredDoc,
    collection Demo.W_big = Some stored
    /\ length stored = 1001
    /\ stored !! 1000 = Some Demo.museum
    /\ md_category (sd_metadata Demo.museum) = Some "museum"
    /\ get_categories Demo.W_big = Ok ["hotel"].
Proof.
  eexists. split; [reflexivity|].
  split; [vm_compute; reflexivity|]. split; [vm_compute; reflexivity|].
  split; [reflexivity|]. vm_compute. reflexivity.
Qed.

(** ** What [return_sources] changes (claim C9) *)

(** C9: whenever [query] returns a result, the result has the [sources]
    key exactly when [return_sources] is true; its three timing fields
    are the rounded differences of the clock readings taken around the
    stages; and the same call with the flag flipped returns the same answer
    and the same metadata, and leaves the same state. *)
Theorem return_sources_only_adds_sources
    (W : World) (question : string) (top_k : Z) (category : option string)
    (return_sources : bool) (s s' : State) (r : Response) :
  query W question top_k category return_sources s = (Ok r, s') ->
  (is_Some (sources r) <-> return_sources = true)
  /\ total_time_ms (metadata r)
     = round2 W ((clock W (5 + clock_reads s) - clock W (clock_reads s)) * 1000)%float
  /\ retrieval_time_ms (metadata r)
     = round2 W ((clock W (2 + clock_reads s) - clock W (1 + clock_reads s)) * 1000)%float
  /\ generation_time_ms (metadata r)
     = round2 W ((clock W (4 + clock_reads s) - clock W (3 + clock_reads s)) * 1000)%float
  /\ exists r' : Response,
       query W question top_k category (negb return_sources) s = (Ok r', s')
       /\ answer r' = answer r
       /\ metadata r' = metadata r.
Proof.
  intros Hq.
  destruct (retrieve W question top_k category) as [docs|e] eqn:Hr.
  - rewrite (query_returns W _ _ _ _ _ _ Hr) in Hq.
    injection Hq as <- <-. cbn [sources metadata answer total_time_ms
                                 retrieval_time_ms generation_time_ms].
    split.
    + destruct return_sources; split; intros H; try reflexivity; eauto.
      * destruct H as [x H]. discriminate H.
      * discriminate H.
    + do 3 (split; [reflexivity|]).
      eexists. split; [apply (query_returns W _ _ _ _ _ _ Hr)|].
      split; reflexivity.
  - rewrite (query_raises W _ _ _ _ _ _ Hr) in Hq. discriminate Hq.
Qed.

Lemma return_sources_witness :
  exists (r r' : Response) (s' : State),
    query Demo.W_up Demo.question 3 None true init = (Ok r, s')
    /\ query Demo.W_up Demo.question 3 None false init = (Ok r', s')
    /\ is_Some (sources r)
    /\ sources r' = None
    /\ answer r' = answer r
    /\ metadata r' = metadata r
    /\ total_time_ms (metadata r) = 0%float.
Proof.
  destruct (query Demo.W_up Demo.question 3 None true init) as [[r|e] s'] eqn:Hq;
    [|vm_compute in Hq; discriminate Hq].
  destruct (return_sources_only_adds_sources
              Demo.W_up Demo.question 3 None true init s' r Hq)
    as (Hsrc & Htotal & _ & _ & r' & Hq' & Ha & Hm).
  exists r, r', s'. split; [reflexivity|]. split; [exact Hq'|].
  split; [apply Hsrc; reflexivity|]. split.
  - destruct (return_sources_only_adds_sources
                Demo.W_up Demo.question 3 None false init s' r' Hq')
      as (Hsrc' & _).
    destruct (sources r') as [l|] eqn:E; [|reflexivity].
    assert (false = true) by (apply Hsrc'; eauto). discriminate.
  - split; [exact Ha|]. split; [exact Hm|].
    rewrite Htotal. vm_compute. reflexivity.
Defined.

(** ** Defaults of the source entries *)

Lemma query_stream_sources_first
    (W : World) (question : string) (top_k : Z) (category : option string)
    (s : State) (docs : list RetrievedDoc) :
  retrieve W question top_k category = Ok docs ->
  exists (events : list Event) (e : option Exn) (s' : State),
    query_stream W question top_k category s
    = ((EvSources (stream_source_of <$> docs) :: events, e), s').
Proof.
  intros Hr. unfold query_stream. rewrite Hr.
  destruct (check_llm W s) as [[|] s1]; [|eauto].
  destruct (llm_generate_stream W _ _ s1) as [[chunks [e|]] s2]; eauto.
Qed.

(** For matches that carry a metadata dict, [query] with
    [return_sources=True] and [query_stream] both produce one source entry
    per match, in order; the entry's name, category and rating are the
    values under the match's metadata keys, and ["Unknown"], ["N/A"] and
    the integer [0] for a key that is absent from the dict. *)
Lemma source_entries_use_defaults
    (W : World) (question : string) (top_k : Z) (category : option string)
    (s : State) (docs : list RetrievedDoc) :
  retrieve W question top_k category = Ok docs ->
  (exists (r : Response) (s' : State) (srcs : list Source),
      query W question top_k category true s = (Ok r, s')
      /\ sources r = Some srcs
      /\ length srcs = length docs
      /\ forall (i : nat) (doc : RetrievedDoc),
           docs !! i = Some doc ->
           exists src : Source,
             srcs !! i = Some src
             /\ src_name src = default "Unknown" (md_name (doc_metadata doc))
             /\ src_category src = default "N/A" (md_category (doc_metadata doc))
             /\ src_rating src = default (NInt 0) (md_rating (doc_metadata doc)))
  /\ (exists (srcs : list StreamSource) (events : list Event)
             (e : option Exn) (s' : State),
        query_stream W question top_k category s
        = ((EvSources srcs :: events, e), s')
        /\ length srcs = length docs
        /\ forall (i : nat) (doc : RetrievedDoc),
             docs !! i = Some doc ->
             exists src : StreamSource,
               srcs !! i = Some src
               /\ ss_name src = default "Unknown" (md_name (doc_metadata doc))
               /\ ss_category src = default "N/A" (md_category (doc_metadata doc))
               /\ ss_rating src = default (NInt 0) (md_rating (doc_metadata doc))).
Proof.
  intros Hr. split.
  - eexists _, _, _. split; [apply (query_returns W _ _ _ _ _ _ Hr)|].
    split; [reflexivity|]. split; [apply length_fmap|].
    intros i doc Hi. exists (source_of doc).
    rewrite list_lookup_fmap, Hi. repeat split.
  - destruct (query_stream_sources_first W question top_k category s docs Hr)
      as (events & e & s' & Hq).
    eexists _, events, e, s'. split; [exact Hq|]. split; [apply length_fmap|].
    intros i doc Hi. exists (stream_source_of doc).
    rewrite list_lookup_fmap, Hi. repeat split.
Qed.

(** A match whose metadata has none of the three keys gets all three
    defaults. *)
Lemma source_entries_witness :
  exists (r : Response) (s' : State) (srcs : list Source) (src : Source),
    query Demo.W_down Demo.question 3 None true init = (Ok r, s')
    /\ sources r = Some srcs
    /\ srcs !! 1 = Some src
    /\ src_name src = "Unknown"
    /\ src_category src = "N/A"
    /\ src_rating src = NInt 0.
Proof.
  destruct (source_entries_use_defaults
              Demo.W_down Demo.question 3 None init
              (retrieved_of Demo.W_down Demo.question
                 <$> [Demo.jasna_gora; Demo.unlabelled]))
    as [(r & s' & srcs & Hq & Hs & _ & Hentry) _].
  - vm_compute. reflexivity.
  - destruct (Hentry 1 (retrieved_of Demo.W_down Demo.question Demo.unlabelled))
      as (src & Hsrc & Hn & Hc & Hrt); [reflexivity|].
    exists r, s', srcs, src. auto 10.
Defined.

(** * More properties of the code *)

(** ** Strings *)

Lemma str_app_cons (x : ascii) (a b : string) :
  String x a ++ b = String x (a ++ b).
Proof. reflexivity. Qed.

Lemma str_app_assoc (a b c : string) : (a ++ b) ++ c = a ++ (b ++ c).
Proof.
  induction a as [|x a IH]; [reflexivity|].
  rewrite !str_app_cons, IH. reflexivity.
Qed.

Lemma str_app_nil_r (a : string) : a ++ "" = a.
Proof.
  induction a as [|x a IH]; [reflexivity|].
  rewrite str_app_cons, IH. reflexivity.
Qed.

Lemma str_app_length (a b : string) :
  String.length (a ++ b) = String.length a + String.length b.
Proof.
  induction a as [|x a IH]; [reflexivity|].
  rewrite str_app_cons. cbn. rewrite IH. reflexivity.
Qed.

Lemma startswith_app (a b : string) : PyStr.startswith (a ++ b) a = true.
Proof.
  induction a as [|x a IH]; [destruct b; reflexivity|].
  rewrite str_app_cons. cbn. rewrite Ascii.eqb_refl. exact IH.
Qed.

Lemma startswith_nil (s : string) : PyStr.startswith s "" = true.
Proof. destruct s; reflexivity. Qed.

Lemma startswith_split (s p : string) :
  PyStr.startswith s p = true -> exists rest : string, s = p ++ rest.
Proof.
  revert s. induction p as [|x p IH]; intros s H.
  - exists s. reflexivity.
  - destruct s as [|y s]; [discriminate H|]. cbn in H.
    destruct (Ascii.eqb_spec x y) as [->|]; [|discriminate H].
    destruct (IH s H) as [rest ->]. exists rest. reflexivity.
Qed.

Lemma rev_app_app (s t : string) : String.rev_app s t = String.rev s ++ t.
Proof.
  unfold String.rev. revert t. induction s as [|x s IH]; intros t; cbn.
  - reflexivity.
  - rewrite (IH (String x t)), (IH (String x "")), str_app_assoc. reflexivity.
Qed.

Lemma rev_cons (x : ascii) (s : string) :
  String.rev (String x s) = String.rev s ++ String x "".
Proof. unfold String.rev at 1. cbn. apply rev_app_app. Qed.

Lemma rev_snoc (s : string) (x : ascii) :
  String.rev (s ++ String x "") = String x (String.rev s).
Proof.
  induction s as [|y s IH]; [reflexivity|].
  rewrite str_app_cons, !rev_cons, IH. reflexivity.
Qed.

Lemma rev_involutive (s : string) : String.rev (String.rev s) = s.
Proof.
  induction s as [|x s IH]; [reflexivity|].
  rewrite rev_cons, rev_snoc, IH. reflexivity.
Qed.

Lemma lstrip_idempotent (s : string) : PyStr.lstrip (PyStr.lstrip s) = PyStr.lstrip s.
Proof.
  induction s as [|x s IH]; [reflexivity|]. cbn [PyStr.lstrip].
  destruct (PyStr.isspace x) eqn:E; [exact IH|].
  cbn [PyStr.lstrip]. rewrite E. reflexivity.
Qed.

Lemma lstrip_snoc (s : string) (x : ascii) :
  PyStr.isspace x = false ->
  PyStr.lstrip (s ++ String x "") = PyStr.lstrip s ++ String x "".
Proof.
  intros Hx. induction s as [|y s IH].
  - change (PyStr.lstrip (String x "") = String x "").
    cbn [PyStr.lstrip]. rewrite Hx. reflexivity.
  - rewrite str_app_cons. cbn [PyStr.lstrip].
    destruct (PyStr.isspace y); [exact IH | reflexivity].
Qed.

Lemma rstrip_cons (x : ascii) (s : string) :
  PyStr.isspace x = false ->
  PyStr.rstrip (String x s) = String x (PyStr.rstrip s).
Proof.
  intros Hx. unfold PyStr.rstrip.
  rewrite rev_cons, (lstrip_snoc _ _ Hx), rev_snoc. reflexivity.
Qed.

Lemma rstrip_idempotent (s : string) : PyStr.rstrip (PyStr.rstrip s) = PyStr.rstrip s.
Proof.
  unfold PyStr.rstrip. rewrite rev_involutive, lstrip_idempotent. reflexivity.
Qed.

Lemma lstrip_head (s : string) (x : ascii) (rest : string) :
  PyStr.lstrip s = String x rest -> PyStr.isspace x = false.
Proof.
  induction s as [|y s IH]; [discriminate|]. cbn [PyStr.lstrip].
  destruct (PyStr.isspace y) eqn:E; [exact IH|].
  intros H. injection H as <- _. exact E.
Qed.

(** A stripped string has no whitespace left at either end. *)
Lemma strip_is_trimmed (s : string) :
  PyStr.lstrip (PyStr.strip s) = PyStr.strip s
  /\ PyStr.rstrip (PyStr.strip s) = PyStr.strip s.
Proof.
  unfold PyStr.strip. split; [|apply rstrip_idempotent].
  destruct (PyStr.lstrip s) as [|x rest] eqn:E; [reflexivity|].
  pose proof (lstrip_head s x rest E) as Hx.
  rewrite (rstrip_cons _ _ Hx). cbn [PyStr.lstrip]. rewrite Hx. reflexivity.
Qed.

(** ** Which models count as available ([LLM.is_available]) *)

Lemma startswith_before_colon (model : string) :
  PyStr.startswith model (PyStr.before_colon model) = true.
Proof.
  induction model as [|x model IH]; [reflexivity|]. cbn.
  destruct (Ascii.eqb x ":"); cbn; [reflexivity|].
  rewrite Ascii.eqb_refl. exact IH.
Qed.

Lemma model_match_by_base (model name : string) :
  String.eqb name model || PyStr.startswith name (PyStr.before_colon model)
  = PyStr.startswith name (PyStr.before_colon model).
Proof.
  destruct (String.eqb_spec name model) as [->|]; [|reflexivity].
  cbn. symmetry. apply startswith_before_colon.
Qed.

Lemma existsb_model_match (model : string) (names : list string) :
  existsb (fun name =>
             String.eqb name model
             || PyStr.startswith name (PyStr.before_colon model)) names = true
  <-> exists name : string,
        name ∈ names /\ PyStr.startswith name (PyStr.before_colon model) = true.
Proof.
  rewrite existsb_exists. split.
  - intros (name & Hin & Hm). exists name. rewrite model_match_by_base in Hm.
    split; [apply list_elem_of_In, Hin|exact Hm].
  - intros (name & Hin & Hm). exists name. rewrite model_match_by_base.
    split; [apply list_elem_of_In, Hin|exact Hm].
Qed.

(** X1: [is_available] says yes exactly when the daemon answers with
    status 200 and lists a name that starts with the part of the
    configured model name before its first colon.  The tag after the colon
    never matters: two model names with the same base are available
    together or not at all. *)
Theorem is_available_by_base_name (model : string) (reply : LLM.TagsReply) :
  (LLM.is_available model reply = true
   <-> exists names : list string,
         reply = LLM.TagsHttp 200 names
         /\ exists name : string,
              name ∈ names
              /\ PyStr.startswith name (PyStr.before_colon model) = true)
  /\ (forall model' : string,
        PyStr.before_colon model' = PyStr.before_colon model ->
        LLM.is_available model' reply = LLM.is_available model reply).
Proof.
  split.
  - destruct reply as [msg|code names]; cbn.
    + split; [discriminate|]. intros (names & H & _). discriminate H.
    + destruct (Z.eqb_spec code 200) as [->|Hne].
      * rewrite existsb_model_match. split.
        -- intros H. exists names. auto.
        -- intros (names' & Heq & H). injection Heq as <-. exact H.
      * split; [discriminate|]. intros (names' & Heq & _).
        injection Heq as Hc _. contradiction.
  - intros model' Hbase. destruct reply as [msg|code names]; cbn; [reflexivity|].
    destruct (code =? 200)%Z; [|reflexivity].
    induction names as [|name names IH]; [reflexivity|]. cbn [existsb].
    rewrite IH, !model_match_by_base, Hbase. reflexivity.
Qed.

Lemma is_available_by_base_name_witness :
  LLM.is_available "gemma:7b" (LLM.TagsHttp 200 ["llama3:8b"; "gemma:2b"]) = true.
Proof.
  destruct (is_available_by_base_name
              "gemma:2b" (LLM.TagsHttp 200 ["llama3:8b"; "gemma:2b"]))
    as [_ Hsame].
  rewrite (Hsame "gemma:7b") by reflexivity. reflexivity.
Defined.

(** ** Switching models ([LLM.set_model]) *)

Lemma set_model_agrees_with_is_available (model_name : string)
    (reply : LLM.TagsReply) :
  Models.set_model model_name reply = LLM.is_available model_name reply.
Proof.
  unfold Models.set_model, Models.get_available_models, LLM.is_available.
  destruct reply as [msg|code names]; [reflexivity|].
  destruct (code =? 200)%Z; reflexivity.
Qed.

(** X2: [set_model] accepts a name under the very test [is_available]
    uses, so a name that is not installed is accepted when another tag of
    the same base is; it then stores the requested name as it was given,
    leaves the model alone when it refuses, and in neither case touches the
    pipeline's cached availability flag: the next [check_llm] still
    returns the flag cached before the switch, without a new probe. *)
Theorem set_model_keeps_requested_name_and_cached_flag
    (W : World) (model_name : string) (s : State) :
  fst (llm_set_model W model_name s)
  = LLM.is_available model_name (ollama_tags W (http_requests s))
  /\ llm_model (snd (llm_set_model W model_name s))
     = (if fst (llm_set_model W model_name s) then model_name else llm_model s)
  /\ _llm_available (snd (llm_set_model W model_name s)) = _llm_available s
  /\ availability_probes (snd (llm_set_model W model_name s))
     = availability_probes s
  /\ (forall b : bool,
        _llm_available s = Some b ->
        check_llm W (snd (llm_set_model W model_name s))
        = (b, snd (llm_set_model W model_name s))).
Proof.
  split; [apply set_model_agrees_with_is_available|].
  split; [reflexivity|]. split; [reflexivity|]. split; [reflexivity|].
  intros b Hb. apply check_llm_cached. exact Hb.
Qed.

Lemma set_model_witness :
  fst (llm_set_model Scenario.W_late "gemma:7b-instruct" Scenario.after_failed_probe)
  = true
  /\ llm_model (snd (llm_set_model Scenario.W_late "gemma:7b-instruct"
                       Scenario.after_failed_probe))
     = "gemma:7b-instruct"
  /\ fst (check_llm Scenario.W_late
            (snd (llm_set_model Scenario.W_late "gemma:7b-instruct"
                    Scenario.after_failed_probe)))
     = false.
Proof.
  destruct (set_model_keeps_requested_name_and_cached_flag
              Scenario.W_late "gemma:7b-instruct" Scenario.after_failed_probe)
    as (Hok & Hname & _ & _ & Hflag).
  split; [rewrite Hok; vm_compute; reflexivity|].
  split; [rewrite Hname, Hok; vm_compute; reflexivity|].
  rewrite (Hflag false) by (vm_compute; reflexivity). reflexivity.
Defined.

(** ** The text [LLM.generate] returns *)

(** X3: when the request succeeds, the text [generate] returns has no
    whitespace at its start or end, and it is empty when the body has no
    [response] key. *)
Theorem generate_success_is_trimmed
    (status_code : Z) (http_error : string) (response : option string) :
  LLM.is_http_error status_code = false ->
  PyStr.lstrip (LLM.generate (LLM.GenHttp status_code http_error response))
  = LLM.generate (LLM.GenHttp status_code http_error response)
  /\ PyStr.rstrip (LLM.generate (LLM.GenHttp status_code http_error response))
     = LLM.generate (LLM.GenHttp status_code http_error response)
  /\ (response = None ->
      LLM.generate (LLM.GenHttp status_code http_error response) = "").
Proof.
  intros Hok. cbn [LLM.generate]. rewrite Hok.
  destruct (strip_is_trimmed (default "" response)) as [Hl Hr].
  split; [exact Hl|]. split; [exact Hr|]. intros ->. reflexivity.
Qed.

Lemma generate_success_witness :
  LLM.generate (LLM.GenHttp 200 "" (Some "  Visit Jasna Gora.  ")) = "Visit Jasna Gora."
  /\ PyStr.lstrip (LLM.generate (LLM.GenHttp 200 "" (Some "  Visit Jasna Gora.  ")))
     = LLM.generate (LLM.GenHttp 200 "" (Some "  Visit Jasna Gora.  ")).
Proof.
  split; [vm_compute; reflexivity|].
  apply (generate_success_is_trimmed 200 "" (Some "  Visit Jasna Gora.  ")).
  reflexivity.
Defined.

(** ** The line loop of [LLM.generate_stream] *)

Lemma iter_lines_after_done (pre : list LLM.Line) (r : option string)
    (post post' : list LLM.Line) (tail tail' : LLM.StreamEnd) :
  LLM.iter_lines (pre ++ LLM.JsonLine r true :: post) tail
  = LLM.iter_lines (pre ++ LLM.JsonLine r true :: post') tail'.
Proof.
  induction pre as [|[|response done|] pre IH]; cbn.
  - reflexivity.
  - exact IH.
  - destruct done; [reflexivity|]. rewrite IH. reflexivity.
  - reflexivity.
Qed.

(** X4: [generate_stream] stops reading at the first line whose [done]
    is true: whatever the body holds after that line, further fragments,
    malformed lines or a transport that breaks, changes neither the
    fragments yielded nor the way the generator ends. *)
Theorem generate_stream_stops_at_done
    (status_code : Z) (http_error : string) (pre : list LLM.Line)
    (r : option string) (post post' : list LLM.Line)
    (tail tail' : LLM.StreamEnd) :
  LLM.generate_stream
    (LLM.StrHttp status_code http_error (pre ++ LLM.JsonLine r true :: post) tail)
  = LLM.generate_stream
      (LLM.StrHttp status_code http_error (pre ++ LLM.JsonLine r true :: post') tail').
Proof.
  cbn [LLM.generate_stream]. destruct (LLM.is_http_error status_code);
    [reflexivity|apply iter_lines_after_done].
Qed.

Example generate_stream_after_done :
  LLM.generate_stream
    (LLM.StrHttp 200 ""
       [LLM.JsonLine (Some "Wel") false; LLM.JsonLine (Some "come") true;
        LLM.GarbageLine; LLM.JsonLine (Some "!") false]
       (LLM.StreamBroken "reset"))
  = (["Wel"; "come"], None).
Proof. reflexivity. Qed.


(** ** The end of the event stream *)



(** A retrieval that raises ends [query_stream] before its first
    event, with that exception and with the pipeline untouched; [query]
    raises the same exception. *)
Lemma failed_retrieval_yields_no_event
    (W : World) (question : string) (top_k : Z) (category : option string)
    (return_sources : bool) (s : State) (e : Exn) :
  retrieve W question top_k category = Raise e ->
  query_stream W question top_k category s = (([], Some e), s)
  /\ fst (query W question top_k category return_sources s) = Raise e.
Proof.
  intros Hr. split.
  - unfold query_stream. rewrite Hr. reflexivity.
  - rewrite (query_raises W _ _ _ _ _ _ Hr). reflexivity.
Qed.

Lemma failed_retrieval_witness :
  query_stream Demo.W_up Demo.question 0 None init
  = (([], Some (TypeError "Number of requested results 0, cannot be negative, or zero.")),
     init).
Proof.
  apply (failed_retrieval_yields_no_event Demo.W_up Demo.question 0 None true init).
  reflexivity.
Defined.

(** ** A pipeline that has seen the daemon down *)

Lemma run_call_unavailable (W : World) (c : Call) (s : State) :
  _llm_available s = Some false ->
  http_requests (run_call W c s) = http_requests s.
Proof.
  intros Hs. destruct c as [|question top_k category return_sources
                             |question top_k category]; cbn [run_call].
  - rewrite (check_llm_cached W s false Hs). reflexivity.
  - destruct (retrieve W question top_k category) as [docs|e] eqn:Hr.
    + rewrite (query_returns W _ _ _ _ _ _ Hr). cbn [snd].
      unfold after_query, at_generation, tick, generate_answer, check_llm.
      cbn. rewrite Hs. cbn. rewrite ?Hs. reflexivity.
    + rewrite (query_raises W _ _ _ _ _ _ Hr). reflexivity.
  - unfold query_stream.
    destruct (retrieve W question top_k category) as [docs|e]; [|reflexivity].
    rewrite (check_llm_cached W s false Hs). reflexivity.
Qed.

Lemma run_calls_unavailable (W : World) (cs : list Call) (s : State) :
  _llm_available s = Some false ->
  http_requests (run_calls W cs s) = http_requests s
  /\ _llm_available (run_calls W cs s) = Some false.
Proof.
  revert s. induction cs as [|c cs IH]; intros s Hs; [cbn; auto|].
  change (run_calls W (c :: cs) s) with (run_calls W cs (run_call W c s)).
  destruct (run_call_stable W c s) as [_ Hkeep].
  destruct (IH (run_call W c s) (Hkeep _ Hs)) as [Hreq Hflag].
  split; [|exact Hflag]. rewrite Hreq. apply run_call_unavailable, Hs.
Qed.

(** X6: once the cached flag of a pipeline is false, it stays false:
    whatever calls of [check_llm], [query] and [query_stream] follow, none
    of them sends a request to the daemon again, and every [query] that
    returns reports [llm_available = false] and answers with the fallback
    text built from what it retrieved. *)
Theorem unavailable_flag_is_never_retried
    (W : World) (cs : list Call) (s : State)
    (question : string) (top_k : Z) (category : option string)
    (return_sources : bool) (r : Response) (s' : State) :
  _llm_available s = Some false ->
  query W question top_k category return_sources (run_calls W cs s) = (Ok r, s') ->
  http_requests s' = http_requests s
  /\ _llm_available s' = Some false
  /\ llm_available (metadata r) = false
  /\ exists docs : list RetrievedDoc,
       retrieve W question top_k category = Ok docs
       /\ answer r = _fallback_answer question (build_context docs).
Proof.
  intros Hs Hq.
  destruct (run_calls_unavailable W
              (cs ++ [CallQuery question top_k category return_sources]) s Hs)
    as [Hreq Hflag].
  unfold run_calls in Hreq, Hflag. rewrite foldl_app in Hreq, Hflag.
  cbn [foldl run_call] in Hreq, Hflag.
  change (foldl (fun s c => run_call W c s) s cs) with (run_calls W cs s)
    in Hreq, Hflag.
  rewrite Hq in Hreq, Hflag. cbn [snd] in Hreq, Hflag.
  split; [exact Hreq|]. split; [exact Hflag|].
  destruct (run_calls_unavailable W cs s Hs) as [_ Hnow].
  destruct (retrieve W question top_k category) as [docs|e] eqn:Hr.
  - rewrite (query_returns W _ _ _ _ _ _ Hr) in Hq. injection Hq as <- _.
    cbn [metadata llm_available answer].
    rewrite (check_llm_cached W _ false Hnow). split; [reflexivity|].
    exists docs. split; [reflexivity|].
    apply generate_answer_unavailable.
    rewrite check_llm_at_generation, (check_llm_cached W _ false Hnow).
    reflexivity.
  - rewrite (query_raises W _ _ _ _ _ _ Hr) in Hq. discriminate Hq.
Qed.

Lemma unavailable_flag_witness :
  exists (r : Response) (s' : State),
    query Scenario.W_late Demo.question 3 None false
      (run_calls Scenario.W_late
         [CallQueryStream Demo.question 3 None; CallCheckLlm]
         Scenario.after_failed_probe)
    = (Ok r, s')
    /\ http_requests s' = 1
    /\ llm_available (metadata r) = false.
Proof.
  destruct (query Scenario.W_late Demo.question 3 None false
              (run_calls Scenario.W_late
                 [CallQueryStream Demo.question 3 None; CallCheckLlm]
                 Scenario.after_failed_probe)) as [[r|e] s'] eqn:Hq;
    [|vm_compute in Hq; discriminate Hq].
  destruct (unavailable_flag_is_never_retried
              Scenario.W_late
              [CallQueryStream Demo.question 3 None; CallCheckLlm]
              Scenario.after_failed_probe
              Demo.question 3 None false r s')
    as (Hreq & _ & Hflag & _).
  - vm_compute. reflexivity.
  - exact Hq.
  - exists r, s'. split; [reflexivity|]. split; [rewrite Hreq; reflexivity|exact Hflag].
Defined.

(** ** [query] and [query_stream] side by side *)



(** ** Size and growth of the fallback text *)

Lemma fallback_answer_length (question context : string) :
  0 < String.length (_fallback_answer question context) <= 1040.
Proof.
  assert (Hpre : String.length FALLBACK_PREAMBLE = 37) by reflexivity.
  assert (Hmsg : String.length NO_INFO_MESSAGE = 61) by reflexivity.
  unfold _fallback_answer. destruct (PyStr.truthy context); cbn [negb].
  - rewrite (str_app_length FALLBACK_PREAMBLE), str_app_length, take_length, Hpre.
    cbn [String.length]. lia.
  - rewrite Hmsg. lia.
Qed.

(** X8: whatever was retrieved, an answer given while the availability
    check says the language model is unreachable is never empty and never
    longer than 1040 characters. *)
Theorem fallback_answer_is_bounded
    (W : World) (question : string) (top_k : Z) (category : option string)
    (return_sources : bool) (s s' : State) (r : Response) :
  fst (check_llm W s) = false ->
  query W question top_k category return_sources s = (Ok r, s') ->
  0 < String.length (answer r) <= 1040.
Proof.
  intros Hdown Hq.
  destruct (retrieve W question top_k category) as [docs|e] eqn:Hr.
  - rewrite (query_returns W _ _ _ _ _ _ Hr) in Hq. injection Hq as <- _.
    cbn [answer]. rewrite generate_answer_unavailable
      by (rewrite check_llm_at_generation; exact Hdown).
    apply fallback_answer_length.
  - rewrite (query_raises W _ _ _ _ _ _ Hr) in Hq. discriminate Hq.
Qed.

Lemma fallback_answer_is_bounded_witness :
  exists (r : Response) (s' : State),
    query Demo.W_down Demo.question 3 None false init = (Ok r, s')
    /\ 0 < String.length (answer r) <= 1040.
Proof.
  destruct (query Demo.W_down Demo.question 3 None false init)
    as [[r|e] s'] eqn:Hq; [|vm_compute in Hq; discriminate Hq].
  exists r, s'. split; [reflexivity|].
  apply (fallback_answer_is_bounded Demo.W_down Demo.question 3 None false init s' r).
  - vm_compute. reflexivity.
  - exact Hq.
Defined.

Lemma join_app_prefix (sep : string) (a b : list string) :
  exists rest : string,
    PyStr.join sep (a ++ b) = PyStr.join sep a ++ rest.
Proof.
  induction a as [|p [|q a] IH].
  - exists (PyStr.join sep b). reflexivity.
  - destruct b as [|q b].
    + exists "". cbn. rewrite str_app_nil_r. reflexivity.
    + exists (sep ++ PyStr.join sep (q :: b)). reflexivity.
  - destruct IH as [rest IH]. exists rest.
    change (PyStr.join sep ((p :: q :: a) ++ b))
      with (p ++ sep ++ PyStr.join sep ((q :: a) ++ b)).
    change (PyStr.join sep (p :: q :: a))
      with (p ++ sep ++ PyStr.join sep (q :: a)).
    rewrite IH, !str_app_assoc. reflexivity.
Qed.

(** X9: the context of the [k] best matches is a prefix of the context
    of all matches, so asking for more documents only appends to the
    context, and the excerpt of the fallback answer starts with the
    best-ranked sources. *)
Theorem context_of_best_matches_is_prefix (docs : list RetrievedDoc) (k : nat) :
  PyStr.startswith (build_context docs) (build_context (take k docs)) = true.
Proof.
  rewrite !build_context_parts.
  rewrite <- (take_drop k docs) at 1. rewrite imap_app.
  destruct (join_app_prefix (PyStr.nl ++ PyStr.nl)
              (imap context_part (take k docs))
              (imap (fun n => context_part (length (take k docs) + n)) (drop k docs)))
    as [rest ->].
  apply startswith_app.
Qed.

(** ** What [search] makes of the collection's answer *)

Lemma search_loop_aligned (results : QueryResults)
    (docs : list string) (ms : list Metadata) (ds : list float) (ids : list string)
    (ms' : list (list Metadata)) (ds' : list (list float)) (ids' : list (list string)) :
  qr_metadatas results = ms :: ms' ->
  qr_distances results = ds :: ds' ->
  qr_ids results = ids :: ids' ->
  forall (rest : list string) (i : nat),
    drop i docs = rest ->
    length ms = length docs -> length ds = length docs -> length ids = length docs ->
    exists out : list RetrievedDoc,
      VectorStore.search_loop results i rest = Ok out
      /\ length out = length rest
      /\ forall (j : nat) (d : string) (m : Metadata) (x : float) (id : string),
           docs !! (i + j) = Some d -> ms !! (i + j) = Some m ->
           ds !! (i + j) = Some x -> ids !! (i + j) = Some id ->
           out !! j = Some {| doc_document := d; doc_metadata := m;
                              doc_distance := x; doc_id := Some id |}.
Proof.
  intros Hm Hd Hi.
  induction rest as [|doc rest IH]; intros i Hdrop Lm Ld Li.
  - exists []. split; [reflexivity|]. split; [reflexivity|].
    intros j d m x id Hj. 
    assert (Hlen : length docs <= i).
    { destruct (decide (length docs <= i)) as [|Hn]; [assumption|].
      assert (Hl : length (drop i docs) = 0) by (rewrite Hdrop; reflexivity).
      rewrite length_drop in Hl. lia. }
    apply lookup_lt_Some in Hj. lia.
  - assert (Hdoc : docs !! i = Some doc).
    { rewrite <- (Nat.add_0_r i), <- lookup_drop, Hdrop. reflexivity. }
    assert (Hrest : drop (S i) docs = rest).
    { rewrite (drop_S _ _ _ Hdoc) in Hdrop. congruence. }
    pose proof (lookup_lt_Some _ _ _ Hdoc) as Hlt.
    destruct (lookup_lt_is_Some_2 ms i) as [m Hmi]; [lia|].
    destruct (lookup_lt_is_Some_2 ds i) as [x Hxi]; [lia|].
    destruct (lookup_lt_is_Some_2 ids i) as [id Hidi]; [lia|].
    destruct (IH (S i) Hrest Lm Ld Li) as (out & Hout & Hlen & Hall).
    eexists. split.
    + cbn [VectorStore.search_loop]. rewrite Hm, Hd, Hi.
      cbn [VectorStore.index0]. rewrite Hmi, Hxi, Hidi. cbn.
      rewrite Hout. cbn. reflexivity.
    + split; [cbn; rewrite Hlen; reflexivity|].
      intros [|j] d m0 x0 id0 H1 H2 H3 H4.
      * rewrite Nat.add_0_r in *. cbn. congruence.
      * cbn. apply Hall; (replace (S i + j) with (i + S j) by lia); assumption.
Qed.

Lemma search_is_query_then_format (W : World) (query : string) (top_k : Z)
    (category_filter : option string) :
  VectorStore.search W query top_k category_filter
  = Chroma.query W query top_k (VectorStore.where_clause category_filter)
      ≫= format_results.
Proof. reflexivity. Qed.

(** X10: for any answer of the collection whose four inner lists have
    the same length, [search] returns one entry per document, in the
    collection's order, each made of the document, metadata, distance and
    id found at the same position. *)
Theorem search_entries_are_aligned
    (results : QueryResults)
    (docs : list string) (ms : list Metadata) (ds : list float) (ids : list string)
    (docs' : list (list string)) (ms' : list (list Metadata))
    (ds' : list (list float)) (ids' : list (list string)) :
  qr_documents results = docs :: docs' ->
  qr_metadatas results = ms :: ms' ->
  qr_distances results = ds :: ds' ->
  qr_ids results = ids :: ids' ->
  length ms = length docs -> length ds = length docs -> length ids = length docs ->
  exists out : list RetrievedDoc,
    format_results results = Ok out
    /\ length out = length docs
    /\ forall (j : nat) (d : string) (m : Metadata) (x : float) (id : string),
         docs !! j = Some d -> ms !! j = Some m ->
         ds !! j = Some x -> ids !! j = Some id ->
         out !! j = Some {| doc_document := d; doc_metadata := m;
                            doc_distance := x; doc_id := Some id |}.
Proof.
  intros Hdocs Hm Hd Hi Lm Ld Li. unfold format_results. rewrite Hdocs.
  apply (search_loop_aligned results docs ms ds ids ms' ds' ids' Hm Hd Hi docs 0);
    auto.
Qed.

Lemma search_entries_witness :
  exists out : list RetrievedDoc,
    format_results
      {| qr_ids := [["7"; "9"]]; qr_documents := [["a park"; "a cafe"]];
         qr_metadatas := [[md_empty; md_empty]];
         qr_distances := [[0.25%float; 0.5%float]] |}
    = Ok out
    /\ out !! 1 = Some {| doc_document := "a cafe"; doc_metadata := md_empty;
                          doc_distance := 0.5%float; doc_id := Some "9" |}.
Proof.
  destruct (search_entries_are_aligned
              {| qr_ids := [["7"; "9"]]; qr_documents := [["a park"; "a cafe"]];
                 qr_metadatas := [[md_empty; md_empty]];
                 qr_distances := [[0.25%float; 0.5%float]] |}
              ["a park"; "a cafe"] [md_empty; md_empty]
              [0.25%float; 0.5%float] ["7"; "9"] [] [] [] [])
    as (out & Hout & _ & Hall); try reflexivity.
  exists out. split; [exact Hout|]. apply Hall; reflexivity.
Defined.

Lemma search_loop_ok_needs_metadata (results : QueryResults)
    (ms : list Metadata) (ms' : list (list Metadata)) :
  qr_metadatas results = ms :: ms' ->
  forall (rest : list string) (i : nat) (out : list RetrievedDoc),
    VectorStore.search_loop results i rest = Ok out ->
    i + length rest <= length ms \/ rest = [].
Proof.
  intros Hm. induction rest as [|doc rest IH]; intros i out H; [auto|].
  left. cbn [VectorStore.search_loop] in H. rewrite Hm in H.
  cbn [VectorStore.index0] in H.
  destruct (ms !! i) as [m|] eqn:Hmi; [|discriminate H].
  apply lookup_lt_Some in Hmi. cbn [mbind PyResult_bind] in H.
  destruct (match qr_distances results with [] => _ | _ => _ end) as [x|e];
    [|discriminate H].
  cbn [mbind PyResult_bind] in H.
  destruct (match qr_ids results with [] => _ | _ => _ end) as [id|e];
    [|discriminate H].
  cbn [mbind PyResult_bind] in H.
  destruct (VectorStore.search_loop results (S i) rest) as [out'|e] eqn:Hrec;
    [|discriminate H].
  destruct (IH (S i) out' Hrec) as [Hle| ->]; cbn [length]; lia.
Qed.

Lemma search_loop_raises_index_error (results : QueryResults) :
  forall (rest : list string) (i : nat) (e : Exn),
    VectorStore.search_loop results i rest = Raise e -> e = IndexError.
Proof.
  induction rest as [|doc rest IH]; intros i e H; [discriminate H|].
  cbn [VectorStore.search_loop] in H.
  assert (Hidx : forall (A : Type) (ll : list (list A)) (k : nat) (x : Exn),
             VectorStore.index0 ll k = Raise x -> x = IndexError).
  { intros A [|l ll] k x; cbn; [congruence|].
    destruct (l !! k); [discriminate|congruence]. }
  destruct (qr_metadatas results) as [|ms ms'] eqn:Em; cbn [mbind PyResult_bind] in H.
  all: try (destruct (VectorStore.index0 (ms :: ms') i) as [m|x] eqn:E1;
            [|apply Hidx in E1; cbn [mbind PyResult_bind] in H; congruence];
            cbn [mbind PyResult_bind] in H).
  all: destruct (qr_distances results) as [|ds ds'] eqn:Ed;
    cbn [mbind PyResult_bind] in H.
  all: try (destruct (VectorStore.index0 (ds :: ds') i) as [d|x] eqn:E2;
            [|apply Hidx in E2; cbn [mbind PyResult_bind] in H; congruence];
            cbn [mbind PyResult_bind] in H).
  all: destruct (qr_ids results) as [|is0 is'] eqn:Ei;
    cbn [mbind PyResult_bind] in H.
  all: try (destruct (VectorStore.index0 (is0 :: is') i) as [d0|x] eqn:E3;
            [|apply Hidx in E3; cbn [mbind PyResult_bind] in H; congruence];
            cbn [mbind PyResult_bind] in H).
  all: destruct (VectorStore.search_loop results (S i) rest) as [out'|x] eqn:Hrec;
    cbn [mbind PyResult_bind] in H; try discriminate H.
  all: apply IH in Hrec; congruence.
Qed.

(** X11: when the collection reports fewer metadata entries than
    documents, [search] does not return a shortened list: it raises
    [IndexError]. *)
Theorem search_raises_on_short_metadata
    (results : QueryResults) (docs : list string) (docs' : list (list string))
    (ms : list Metadata) (ms' : list (list Metadata)) :
  qr_documents results = docs :: docs' ->
  qr_metadatas results = ms :: ms' ->
  length ms < length docs ->
  format_results results = Raise IndexError.
Proof.
  intros Hdocs Hm Hlt. unfold format_results. rewrite Hdocs.
  destruct (VectorStore.search_loop results 0 docs) as [out|e] eqn:H.
  - destruct (search_loop_ok_needs_metadata results ms ms' Hm docs 0 out H)
      as [Hle| ->]; [lia|]. cbn in Hlt. lia.
  - f_equal. apply (search_loop_raises_index_error results docs 0 e H).
Qed.

Lemma search_raises_on_short_metadata_witness :
  format_results
    {| qr_ids := [["7"; "9"]]; qr_documents := [["a park"; "a cafe"]];
       qr_metadatas := [[md_empty]];
       qr_distances := [[0.25%float; 0.5%float]] |}
  = Raise IndexError.
Proof.
  apply (search_raises_on_short_metadata _ ["a park"; "a cafe"] [] [md_empty] []);
    [reflexivity|reflexivity|cbn; lia].
Defined.

(** ** The category filter *)

Lemma insert_by_elem (dist : StoredDoc -> float) (d x : StoredDoc)
    (l : list StoredDoc) :
  x ∈ Chroma.insert_by dist d l <-> x = d \/ x ∈ l.
Proof.
  induction l as [|r l IH]; cbn.
  - rewrite elem_of_cons. tauto.
  - destruct (PrimFloat.leb (dist d) (dist r)).
    + rewrite elem_of_cons. tauto.
    + rewrite !elem_of_cons, IH. tauto.
Qed.

Lemma rank_elem (dist : StoredDoc -> float) (x : StoredDoc) (l : list StoredDoc) :
  x ∈ Chroma.rank dist l <-> x ∈ l.
Proof.
  unfold Chroma.rank. induction l as [|d l IH]; cbn; [tauto|].
  rewrite insert_by_elem, IH, elem_of_cons. tauto.
Qed.

(** An empty string as category is no filter at all: [query] and
    [query_stream] behave exactly as when no category is given. *)
Lemma empty_category_is_no_filter
    (W : World) (question : string) (top_k : Z) (return_sources : bool)
    (s : State) :
  query W question top_k (Some "") return_sources s
  = query W question top_k None return_sources s
  /\ query_stream W question top_k (Some "") s
     = query_stream W question top_k None s.
Proof. split; reflexivity. Qed.

(** X12: on an existing collection and with a positive [top_k],
    retrieval returns at most [top_k] matches, and with a non-empty
    category every match it returns carries exactly that category in its
    metadata. *)
Theorem retrieval_respects_limit_and_category
    (W : World) (stored : list StoredDoc) (question : string) (top_k : Z)
    (category : option string) :
  collection W = Some stored ->
  (0 < top_k)%Z ->
  exists docs : list RetrievedDoc,
    retrieve W question top_k category = Ok docs
    /\ (Z.of_nat (length docs) <= top_k)%Z
    /\ forall (c : string) (doc : RetrievedDoc),
         category = Some c -> c <> "" -> doc ∈ docs ->
         md_category (doc_metadata doc) = Some c.
Proof.
  intros Hc Hk. eexists. split; [apply (search_ok W stored _ _ _ Hc Hk)|].
  split.
  - rewrite length_fmap. unfold hits. rewrite length_take. lia.
  - intros c doc -> Hne Hin.
    apply list_elem_of_fmap in Hin as (d & -> & Hd). cbn [retrieved_of doc_metadata].
    unfold hits in Hd. apply elem_of_take in Hd as (i & Hd & _).
    apply list_elem_of_lookup_2, rank_elem, list_elem_of_filter in Hd as [Hmatch _].
    unfold VectorStore.where_clause in Hmatch.
    destruct c as [|a c]; [congruence|]. cbn in Hmatch.
    apply bool_decide_eq_true in Hmatch. exact Hmatch.
Qed.

Lemma retrieval_respects_category_witness :
  exists docs : list RetrievedDoc,
    retrieve Demo.W_big Demo.question 5 (Some "museum") = Ok docs
    /\ (Z.of_nat (length docs) <= 5)%Z.
Proof.
  destruct (retrieval_respects_limit_and_category
              Demo.W_big ((Demo.hotel <$> seq 0 1000) ++ [Demo.museum])%list
              Demo.question 5 (Some "museum"))
    as (docs & Hr & Hlen & _); [reflexivity|lia|].
  exists docs. auto.
Defined.

(** ** The routes of [app.py] *)

Lemma strip_only_whitespace (s : string) :
  PyText.only_whitespace s = true -> PyStr.strip s = "".
Proof.
  intros H. unfold PyStr.strip.
  assert (Hl : PyStr.lstrip s = "").
  { induction s as [|c s IH]; [reflexivity|]. cbn [PyText.only_whitespace] in H.
    apply andb_true_iff in H as [Hc Hs]. cbn [PyStr.lstrip]. rewrite Hc. auto. }
  rewrite Hl. reflexivity.
Qed.

(** X13: a chat request whose message is absent, empty or made of
    whitespace only is answered with status 400 by both chat routes, and
    nothing else happens: no pipeline is created, nothing is retrieved,
    the daemon is not asked. *)
Theorem chat_rejects_blank_message
    (W : World) (data : App.ChatRequest) (app : option State) :
  PyText.only_whitespace (default "" (App.req_message data)) = true ->
  App.chat W data app = (App.Http400 "No message provided", app)
  /\ App.chat_stream W data app = (App.Http400 "No message provided", app).
Proof.
  intros H. unfold App.chat, App.chat_stream.
  rewrite (strip_only_whitespace _ H). split; reflexivity.
Qed.

Lemma chat_rejects_blank_message_witness :
  App.chat Demo.W_up
    {| App.req_message := Some "   "; App.req_category := None;
       App.req_include_sources := None |} None
  = (App.Http400 "No message provided", None).
Proof.
  apply (chat_rejects_blank_message Demo.W_up
           {| App.req_message := Some "   "; App.req_category := None;
              App.req_include_sources := None |} None).
  reflexivity.
Defined.

(** X14: when retrieval raises, [/api/chat] answers with status 500 and
    the exception, while [/api/chat/stream] has already answered with
    status 200: its body carries no event at all and breaks with that
    exception. *)
Theorem chat_routes_on_failed_retrieval
    (W : World) (data : App.ChatRequest) (app : option State) (e : Exn) :
  PyStr.strip (default "" (App.req_message data)) <> "" ->
  retrieve W (PyStr.strip (default "" (App.req_message data)))
    TOP_K_RESULTS (App.req_category data) = Raise e ->
  fst (App.chat W data app) = App.Http500 e
  /\ fst (App.chat_stream W data app)
     = App.Http200 {| App.stream_events := []; App.stream_raised := Some e |}.
Proof.
  intros Hmsg Hr. unfold App.chat, App.chat_stream.
  destruct (PyStr.strip (default "" (App.req_message data))) as [|c q] eqn:Eq;
    [congruence|].
  cbn [PyStr.truthy negb]. split.
  - rewrite (query_raises W _ _ _ _ _ _ Hr). reflexivity.
  - unfold query_stream. rewrite Hr. reflexivity.
Qed.

Lemma chat_routes_on_failed_retrieval_witness :
  fst (App.chat Demo.W_missing
         {| App.req_message := Some " Where to eat? "; App.req_category := None;
            App.req_include_sources := None |} None)
  = App.Http500 (ChromaError "Collection does not exist.").
Proof.
  apply (chat_routes_on_failed_retrieval Demo.W_missing
           {| App.req_message := Some " Where to eat? "; App.req_category := None;
              App.req_include_sources := None |} None).
  - vm_compute. discriminate.
  - vm_compute. reflexivity.
Defined.



(** X16: switching models does not bring generated answers back.  On a
    pipeline whose cached flag is false, whatever [/api/models/switch]
    answers, a following [/api/chat] that succeeds still reports
    [llm_available = false], and its answer is the fallback text built
    from the documents retrieved for the trimmed message. *)
Theorem switch_model_does_not_refresh_availability
    (W : World) (model : option string) (s : State)
    (data : App.ChatRequest) (body : App.ChatBody) (app' : option State) :
  _llm_available s = Some false ->
  App.chat W data (snd (App.switch_model W model (Some s)))
  = (App.Http200 body, app') ->
  llm_available (App.body_metadata body) = false
  /\ exists docs : list RetrievedDoc,
       retrieve W (PyStr.strip (default "" (App.req_message data)))
         TOP_K_RESULTS (App.req_category data) = Ok docs
       /\ App.body_answer body
          = _fallback_answer (PyStr.strip (default "" (App.req_message data)))
              (build_context docs).
Proof.
  intros Hs Hchat.
  assert (Hflag : exists s1 : State,
             snd (App.switch_model W model (Some s)) = Some s1
             /\ _llm_available s1 = Some false).
  { unfold App.switch_model.
    destruct (negb (PyStr.truthy (PyStr.strip (default "" model))));
      [exists s; auto|].
    cbn [App.get_rag_pipeline default llm_set_model].
    destruct (Models.set_model _ _); eexists; (split; [reflexivity|exact Hs]). }
  destruct Hflag as (s1 & Happ & Hs1). rewrite Happ in Hchat.
  unfold App.chat, App.get_rag_pipeline in Hchat. cbn [default] in Hchat.
  destruct (negb (PyStr.truthy (PyStr.strip (default "" (App.req_message data)))));
    [discriminate Hchat|].
  destruct (retrieve W (PyStr.strip (default "" (App.req_message data)))
              TOP_K_RESULTS (App.req_category data)) as [docs|e] eqn:Hr.
  - rewrite (query_returns W _ _ _ _ _ _ Hr) in Hchat.
    injection Hchat as <- _.
    cbn [App.body_metadata App.body_answer llm_available].
    rewrite (check_llm_cached W s1 false Hs1). split; [reflexivity|].
    exists docs. split; [reflexivity|]. apply generate_answer_unavailable.
    rewrite check_llm_at_generation, (check_llm_cached W s1 false Hs1).
    reflexivity.
  - rewrite (query_raises W _ _ _ _ _ _ Hr) in Hchat. discriminate Hchat.
Qed.

Lemma switch_model_witness :
  exists (body : App.ChatBody) (app' : option State),
    fst (App.switch_model Scenario.W_late (Some "gemma:2b")
           (Some Scenario.after_failed_probe))
    = App.Http200 "gemma:2b"
    /\ App.chat Scenario.W_late
         {| App.req_message := Some Demo.question; App.req_category := None;
            App.req_include_sources := None |}
         (snd (App.switch_model Scenario.W_late (Some "gemma:2b")
                 (Some Scenario.after_failed_probe)))
       = (App.Http200 body, app')
    /\ llm_available (App.body_metadata body) = false
    /\ App.body_answer body
       = _fallback_answer Demo.question
           (build_context (retrieved_of Scenario.W_late Demo.question
                             <$> [Demo.jasna_gora; Demo.unlabelled])).
Proof.
  destruct (App.chat Scenario.W_late
              {| App.req_message := Some Demo.question; App.req_category := None;
                 App.req_include_sources := None |}
              (snd (App.switch_model Scenario.W_late (Some "gemma:2b")
                      (Some Scenario.after_failed_probe))))
    as [[body|err|e] app'] eqn:Hchat;
    [|vm_compute in Hchat; discriminate Hchat
     |vm_compute in Hchat; discriminate Hchat].
  exists body, app'. split; [vm_compute; reflexivity|]. split; [reflexivity|].
  destruct (switch_model_does_not_refresh_availability
              Scenario.W_late (Some "gemma:2b") Scenario.after_failed_probe
              {| App.req_message := Some Demo.question; App.req_category := None;
                 App.req_include_sources := None |} body app')
    as (Hflag & docs & Hr & Ha).
  - vm_compute. reflexivity.
  - exact Hchat.
  - split; [exact Hflag|].
    change (PyStr.strip (default "" (App.req_message
              {| App.req_message := Some Demo.question; App.req_category := None;
                 App.req_include_sources := None |})))
      with Demo.question in Hr, Ha.
    cbn [App.req_category] in Hr. rewrite Ha.
    assert (Hdocs : retrieve Scenario.W_late Demo.question TOP_K_RESULTS None
                    = Ok (retrieved_of Scenario.W_late Demo.question
                            <$> [Demo.jasna_gora; Demo.unlabelled]))
      by (vm_compute; reflexivity).
    rewrite Hdocs in Hr. injection Hr as <-. reflexivity.
Defined.

(** X17: on an existing collection [/api/status] answers with status 200;
    it reports the number of records, says [ready] exactly when there is
    at least one and [no_data] otherwise, lists no category for an empty
    collection, and the availability it reports is the flag the pipeline
    holds cached from then on. *)
Theorem status_reports_the_index
    (W : World) (app : option State) (stored : list StoredDoc) :
  collection W = Some stored ->
  exists (body : App.StatusBody) (s' : State),
    App.get_status W app = (App.Http200 body, Some s')
    /\ App.st_documents_indexed body = length stored
    /\ (App.st_status body = "ready" <-> stored <> [])
    /\ (App.st_status body = "no_data" <-> stored = [])
    /\ (stored = [] -> App.st_categories body = [])
    /\ _llm_available s' = Some (App.st_llm_available body)
    /\ App.st_current_model body = llm_model (default init app).
Proof.
  intros Hc. unfold App.get_status, App.get_rag_pipeline, Chroma.count,
    get_categories, VectorStore.get_all_categories, Chroma.get_metadatas.
  rewrite Hc. cbn [mbind PyResult_bind].
  pose proof (check_llm_stores W (default init app)) as Hst.
  assert (Hmodel : llm_model (snd (check_llm W (default init app)))
                   = llm_model (default init app)).
  { unfold check_llm. destruct (_llm_available (default init app)); reflexivity. }
  destruct (check_llm W (default init app)) as [b s1]. cbn [fst snd] in Hst, Hmodel.
  eexists _, _. split; [reflexivity|].
  cbn [App.st_documents_indexed App.st_status App.st_categories
       App.st_llm_available App.st_current_model].
  split; [reflexivity|].
  destruct stored as [|d stored]; cbn [length Nat.ltb Nat.leb].
  - split; [split; [discriminate|congruence]|].
    split; [split; auto|]. split; [|auto].
    intros _. cbn. unfold VectorStore.sorted, VectorStore.categories_loop. cbn.
    rewrite elements_empty. reflexivity.
  - split; [split; [discriminate|reflexivity]|].
    split; [split; discriminate|]. split; [discriminate|auto].
Qed.

Lemma status_reports_the_index_witness :
  exists (body : App.StatusBody) (s' : State),
    App.get_status Demo.W_empty_up None = (App.Http200 body, Some s')
    /\ App.st_status body = "no_data"
    /\ App.st_categories body = [].
Proof.
  destruct (status_reports_the_index Demo.W_empty_up None [])
    as (body & s' & Hst & _ & _ & Hno & Hcat & _); [reflexivity|].
  exists body, s'. split; [exact Hst|]. split; [apply Hno|apply Hcat]; reflexivity.
Defined.

(** ** Categories of the fetched elements *)

Ltac in_vocabulary :=
  cbv [Reviews.REVIEW_TEMPLATES_keys app];
  solve [repeat first [apply list_elem_of_here | apply list_elem_of_further]].

(** X18: [determine_category] never leaves its vocabulary of fourteen
    names, and for an element the Overpass query selects it never answers
    [shop] or [other]: every fetched POI falls in a category that has
    review templates of its own. *)
Theorem fetched_elements_have_review_templates (tags : gmap string string) :
  Osm.determine_category tags
    ∈ (Reviews.REVIEW_TEMPLATES_keys ++ ["shop"; "other"])%list
  /\ (Osm.selected_by_query tags = true ->
      Reviews.has_own_templates (Osm.determine_category tags) = true).
Proof.
  unfold Osm.determine_category, Osm.selected_by_query.
  repeat match goal with
         | |- context [Osm.tag_is tags ?k ?v] =>
             destruct (Osm.tag_is tags k v);
             cbn [orb];
             try (split; [in_vocabulary|intros _; vm_compute; reflexivity])
         | |- context [Osm.has_tag tags ?k] =>
             destruct (Osm.has_tag tags k);
             cbn [orb];
             try (split; [in_vocabulary|intros _; vm_compute; reflexivity])
         end.
  destruct (Osm.tag_truthy tags "shop"); (split; [in_vocabulary|discriminate]).
Qed.

Lemma fetched_elements_witness :
  Reviews.has_own_templates
    (Osm.determine_category
       {[ "name" := "Kosciol sw. Barbary"; "historic" := "church";
          "amenity" := "place_of_worship" ]})
  = true.
Proof.
  apply (fetched_elements_have_review_templates
           {[ "name" := "Kosciol sw. Barbary"; "historic" := "church";
              "amenity" := "place_of_worship" ]}).
  vm_compute. reflexivity.
Defined.

(** ** The document text of a POI *)

Lemma join_cons_prefix (sep p : string) (rest : list string) :
  exists tail : string, PyStr.join sep (p :: rest) = p ++ tail.
Proof.
  destruct rest as [|q rest].
  - exists "". cbn. rewrite str_app_nil_r. reflexivity.
  - exists (sep ++ PyStr.join sep (q :: rest)). reflexivity.
Qed.

Lemma create_document_text_starts_with_name
    (str_float : float -> string) (poi : Reviews.Poi) :
  exists tail : string,
    Reviews.create_document_text str_float poi
    = (Reviews.poi_name poi ++ " is a ") ++ tail.
Proof.
  unfold Reviews.create_document_text.
  match goal with
  | |- context [PyStr.join " " (concat ([?first] :: ?more))] =>
      change (concat ([first] :: more)) with (first :: concat more);
      destruct (join_cons_prefix " " first (concat more)) as [tail ->]
  end.
  eexists. rewrite !str_app_assoc. reflexivity.
Qed.

Lemma truthy_app_nonempty (a b tail : string) :
  PyStr.truthy b = true -> PyStr.truthy ((a ++ b) ++ tail) = true.
Proof.
  intros Hb. destruct a as [|x a]; [|reflexivity].
  destruct b as [|y b]; [discriminate Hb|reflexivity].
Qed.

(** ** What [index_documents] hands to the collection *)

Section IndexingLemmas.

Import Reviews Indexing.

Lemma prepare_fold (pois : list Poi) :
  forall acc : Prepared,
    foldl prepare_step acc pois
    = {| ids := ids acc
                ++ ((fun p => str_of_Z (poi_id p))
                      <$> filter (fun p => has_text p = true) pois);
         documents := documents acc
                      ++ ((fun p => default "" (poi_document_text p))
                            <$> filter (fun p => has_text p = true) pois);
         metadatas := metadatas acc
                      ++ (metadata_of
                            <$> filter (fun p => has_text p = true) pois) |}%list.
Proof.
  induction pois as [|p pois IH]; intros [i d m]; cbn [foldl].
  - cbn. rewrite !app_nil_r. reflexivity.
  - rewrite IH. unfold prepare_step. rewrite filter_cons. fold (has_text p).
    destruct (decide (has_text p = true)) as [E|E].
    + rewrite E. cbn [negb ids documents metadatas fmap list_fmap].
      rewrite <- !app_assoc. reflexivity.
    + apply not_true_is_false in E. rewrite E. reflexivity.
Qed.

Lemma prepare_spec (pois : list Poi) :
  prepare pois
  = {| ids := (fun p => str_of_Z (poi_id p))
                <$> filter (fun p => has_text p = true) pois;
       documents := (fun p => default "" (poi_document_text p))
                      <$> filter (fun p => has_text p = true) pois;
       metadatas := metadata_of <$> filter (fun p => has_text p = true) pois |}.
Proof. unfold prepare. rewrite prepare_fold. reflexivity. Qed.

Lemma range_step_bound (n k : nat) :
  k < (n + batch_size - 1) / batch_size -> k * batch_size < n.
Proof.
  unfold batch_size. intros Hk.
  pose proof (Nat.div_mod_eq (n + 100 - 1) 100) as Hdiv.
  pose proof (Nat.mod_upper_bound (n + 100 - 1) 100) as Hmod.
  lia.
Qed.

Lemma range_step_covers (n : nat) :
  n <= ((n + batch_size - 1) / batch_size) * batch_size.
Proof.
  unfold batch_size.
  pose proof (Nat.div_mod_eq (n + 100 - 1) 100) as Hdiv.
  pose proof (Nat.mod_upper_bound (n + 100 - 1) 100) as Hmod.
  lia.
Qed.

(** The slices taken at the multiples of the batch size, put end to
    end, give the list back. *)
Lemma slices_concat {A} (l : list A) (n : nat) :
  length l <= n ->
  range_step n batch_size
    ≫= (fun i => slice l i (Nat.min (i + batch_size) n))
  = l.
Proof.
  intros Hlen. unfold range_step.
  assert (Hpre : forall j : nat,
             j <= (n + batch_size - 1) / batch_size ->
             ((fun k => k * batch_size) <$> seq 0 j)
               ≫= (fun i => slice l i (Nat.min (i + batch_size) n))
             = take (j * batch_size) l).
  { induction j as [|j IH]; intros Hj; [reflexivity|].
    rewrite seq_S, fmap_app, bind_app, IH by lia.
    cbn [fmap list_fmap mbind list_bind Nat.add].
    rewrite app_nil_r. unfold slice.
    pose proof (range_step_bound n j ltac:(lia)) as Hlt.
    unfold batch_size in *.
    destruct (Nat.le_gt_cases (j * 100 + 100) n) as [Hle|Hgt].
    - rewrite Nat.min_l by lia.
      replace (j * 100 + 100 - j * 100) with 100 by lia.
      rewrite take_take_drop. f_equal. lia.
    - rewrite Nat.min_r by lia. rewrite take_take_drop.
      replace (j * 100 + (n - j * 100)) with n by lia.
      rewrite (take_ge l n) by lia. rewrite take_ge by lia. reflexivity. }
  rewrite Hpre by lia. apply take_ge.
  pose proof (range_step_covers n). lia.
Qed.

Lemma added_ids_add_calls (embeddings : list (list float)) (p : Prepared) :
  added_ids (add_calls embeddings p)
  = range_step (length (ids p)) batch_size
      ≫= (fun i => slice (ids p) i (Nat.min (i + batch_size) (length (ids p)))).
Proof.
  unfold added_ids, add_calls.
  induction (range_step (length (ids p)) batch_size) as [|i r IH];
    [reflexivity|].
  cbn [fmap list_fmap mbind list_bind]. f_equal. exact IH.
Qed.

Lemma added_documents_add_calls (embeddings : list (list float)) (p : Prepared) :
  added_documents (add_calls embeddings p)
  = range_step (length (ids p)) batch_size
      ≫= (fun i => slice (documents p) i
                     (Nat.min (i + batch_size) (length (ids p)))).
Proof.
  unfold added_documents, add_calls.
  induction (range_step (length (ids p)) batch_size) as [|i r IH];
    [reflexivity|].
  cbn [fmap list_fmap mbind list_bind]. f_equal. exact IH.
Qed.

Lemma added_metadatas_add_calls (embeddings : list (list float)) (p : Prepared) :
  added_metadatas (add_calls embeddings p)
  = range_step (length (ids p)) batch_size
      ≫= (fun i => slice (metadatas p) i
                     (Nat.min (i + batch_size) (length (ids p)))).
Proof.
  unfold added_metadatas, add_calls.
  induction (range_step (length (ids p)) batch_size) as [|i r IH];
    [reflexivity|].
  cbn [fmap list_fmap mbind list_bind]. f_equal. exact IH.
Qed.

Lemma prepare_lengths (pois : list Poi) :
  length (documents (prepare pois)) = length (ids (prepare pois))
  /\ length (metadatas (prepare pois)) = length (ids (prepare pois)).
Proof. rewrite prepare_spec. cbn. rewrite !length_fmap. auto. Qed.

End IndexingLemmas.

Section IndexingTheorems.

Import Reviews Indexing.

(** X19: the first loop of [index_documents] keeps exactly the POIs that
    have a non-empty document text, in their order, and its three lists
    stay aligned: position by position they hold the decimal id, the text
    and the metadata of the same POI.  The metadata always carries a
    name, a category and a rating (the integer 0 when the POI has no
    average rating). *)
Theorem prepared_lists_are_aligned (pois : list Poi) :
  ids (prepare pois)
  = (fun p => str_of_Z (poi_id p)) <$> filter (fun p => has_text p = true) pois
  /\ documents (prepare pois)
     = (fun p => default "" (poi_document_text p))
         <$> filter (fun p => has_text p = true) pois
  /\ metadatas (prepare pois)
     = metadata_of <$> filter (fun p => has_text p = true) pois
  /\ Forall (fun text => text <> "") (documents (prepare pois))
  /\ Forall (fun m => is_Some (md_name m) /\ is_Some (md_category m)
                      /\ is_Some (md_rating m))
       (metadatas (prepare pois)).
Proof.
  rewrite prepare_spec. cbn [ids documents metadatas].
  split; [reflexivity|]. split; [reflexivity|]. split; [reflexivity|]. split.
  - apply Forall_fmap, Forall_forall. intros p Hp.
    apply list_elem_of_filter in Hp as [Hp _]. unfold has_text in Hp. cbn.
    destruct (default "" (poi_document_text p)); [discriminate Hp|discriminate].
  - apply Forall_fmap, Forall_forall. intros p _. cbn. eauto.
Qed.

Lemma index_calls_sizes (embeddings : list (list float)) (pois : list Poi) :
  Forall (fun c => match c with
                   | Add i d _ m =>
                       1 <= length i <= batch_size
                       /\ length d = length i /\ length m = length i
                   | _ => True
                   end)
    (add_calls embeddings (prepare pois)).
Proof.
  destruct (prepare_lengths pois) as [Hd Hm].
  unfold add_calls, range_step. apply Forall_fmap, Forall_fmap, Forall_forall.
  intros k Hk. apply elem_of_seq in Hk as [_ Hk]. cbn [Nat.add] in Hk.
  pose proof (range_step_bound (length (ids (prepare pois))) k Hk) as Hlt.
  unfold compose. cbv beta zeta. unfold slice.
  rewrite !length_take, !length_drop, Hd, Hm.
  unfold batch_size in *. lia.
Qed.

Lemma slice_take {A} (l : list A) (i j n : nat) :
  j <= n -> slice (take n l) i j = slice l i j.
Proof.
  intros Hj. unfold slice.
  destruct (Nat.le_gt_cases i n) as [Hi|Hi].
  - replace n with (i + (n - i)) at 1 by lia.
    rewrite <- take_drop_commute, take_take. f_equal. lia.
  - replace (j - i) with 0 by lia. reflexivity.
Qed.

(** The slices of a list that is longer than the ids: its first
    [len(ids)] entries. *)
Lemma slices_take {A} (l : list A) (n : nat) :
  range_step n batch_size
    ≫= (fun i => slice l i (Nat.min (i + batch_size) n))
  = take n l.
Proof.
  rewrite <- (slices_concat (take n l) n) by (rewrite length_take; lia).
  induction (range_step n batch_size) as [|i r IH]; [reflexivity|].
  cbn [mbind list_bind]. rewrite IH, slice_take by lia. reflexivity.
Qed.

Lemma added_embeddings_add_calls (embeddings : list (list float)) (p : Prepared) :
  added_embeddings (add_calls embeddings p)
  = range_step (length (ids p)) batch_size
      ≫= (fun i => slice embeddings i
                     (Nat.min (i + batch_size) (length (ids p)))).
Proof.
  unfold added_embeddings, add_calls.
  induction (range_step (length (ids p)) batch_size) as [|i r IH];
    [reflexivity|].
  cbn [fmap list_fmap mbind list_bind]. f_equal. exact IH.
Qed.

Lemma add_calls_are_adds (embeddings : list (list float)) (pois : list Poi) :
  Forall (fun c => exists (i d : list string) (e : list (list float))
                          (m : list Metadata),
                     c = Add i d e m
                     /\ 1 <= length i <= 100
                     /\ length d = length i /\ length m = length i)
    (add_calls embeddings (prepare pois)).
Proof.
  destruct (prepare_lengths pois) as [Hd Hm].
  unfold add_calls, range_step. apply Forall_fmap, Forall_fmap, Forall_forall.
  intros k Hk. apply elem_of_seq in Hk as [_ Hk]. cbn [Nat.add] in Hk.
  pose proof (range_step_bound (length (ids (prepare pois))) k Hk) as Hlt.
  unfold compose. cbv beta zeta. eexists _, _, _, _. split; [reflexivity|].
  unfold slice.
  rewrite !length_take, !length_drop, Hd, Hm.
  unfold batch_size in *. lia.
Qed.

(** X20: when the collection already holds records and no re-index is
    forced, [index_documents] changes nothing: it only reads the count.
    Otherwise its changing calls are, in this order: one delete and one
    create when a re-index is forced on a non-empty collection, none of
    them on an empty one, and then add calls only.  Every add holds
    between 1 and 100 records with as many documents and metadata
    entries as ids; the batches put end to end are the prepared ids,
    documents and metadata, nothing lost and nothing twice, and the
    embeddings sent are the first [len(ids)] that [get_embeddings]
    returned for the prepared documents. *)
Theorem index_documents_adds_everything_in_batches
    (get_embeddings : list string -> list (list float))
    (count : nat) (pois : list Poi) (force_reindex : bool) :
  exists adds : list CollectionCall,
    Forall (fun c => exists (i d : list string) (e : list (list float))
                            (m : list Metadata),
                       c = Add i d e m
                       /\ 1 <= length i <= 100
                       /\ length d = length i /\ length m = length i)
      adds
    /\ added_ids adds = ids (prepare pois)
    /\ added_documents adds = documents (prepare pois)
    /\ added_metadatas adds = metadatas (prepare pois)
    /\ added_embeddings adds
       = take (length (ids (prepare pois)))
           (get_embeddings (documents (prepare pois)))
    /\ (0 < count -> force_reindex = false ->
        index_documents get_embeddings count pois force_reindex = [])
    /\ (0 < count -> force_reindex = true ->
        index_documents get_embeddings count pois force_reindex
        = DeleteCollection :: CreateCollection :: adds)
    /\ (count = 0 ->
        index_documents get_embeddings count pois force_reindex = adds).
Proof.
  destruct (prepare_lengths pois) as [Hd Hm].
  exists (add_calls (get_embeddings (documents (prepare pois))) (prepare pois)).
  split; [apply add_calls_are_adds|].
  rewrite added_ids_add_calls, added_documents_add_calls,
    added_metadatas_add_calls, added_embeddings_add_calls.
  rewrite !slices_concat by lia. rewrite slices_take.
  do 4 (split; [reflexivity|]).
  unfold index_documents. split; [|split].
  - intros Hc ->. destruct (Nat.ltb_spec 0 count); [reflexivity|lia].
  - intros Hc ->. destruct (Nat.ltb_spec 0 count); [reflexivity|lia].
  - intros ->. destruct force_reindex; reflexivity.
Qed.

End IndexingTheorems.

Lemma prepared_lists_witness :
  Indexing.ids (Indexing.prepare
                  [Samples.cafe 7 (Some "Cafe Belg is a cafe.");
                   Samples.cafe 8 None; Samples.cafe 9 (Some "");
                   Samples.cafe 10 (Some "Another cafe.")])
  = ["7"; "10"]
  /\ Forall (fun text => text <> "")
       (Indexing.documents
          (Indexing.prepare
             [Samples.cafe 7 (Some "Cafe Belg is a cafe.");
              Samples.cafe 8 None; Samples.cafe 9 (Some "");
              Samples.cafe 10 (Some "Another cafe.")])).
Proof.
  destruct (prepared_lists_are_aligned
              [Samples.cafe 7 (Some "Cafe Belg is a cafe.");
               Samples.cafe 8 None; Samples.cafe 9 (Some "");
               Samples.cafe 10 (Some "Another cafe.")])
    as (Hids & _ & _ & Hdocs & _).
  split; [rewrite Hids; vm_compute; reflexivity|exact Hdocs].
Defined.

Lemma index_documents_witness :
  exists adds : list Indexing.CollectionCall,
    Indexing.index_documents (fun docs => []) 3
      ((fun n => Samples.cafe (Z.of_nat n) (Some "A cafe.")) <$> seq 0 250) true
    = Indexing.DeleteCollection :: Indexing.CreateCollection :: adds
    /\ length adds = 3
    /\ Indexing.added_ids adds
       = Indexing.ids
           (Indexing.prepare
              ((fun n => Samples.cafe (Z.of_nat n) (Some "A cafe.")) <$> seq 0 250)).
Proof.
  destruct (index_documents_adds_everything_in_batches
              (fun docs => []) 3
              ((fun n => Samples.cafe (Z.of_nat n) (Some "A cafe.")) <$> seq 0 250)
              true)
    as (adds & _ & Hids & _ & _ & _ & _ & Hforce & _).
  exists adds. specialize (Hforce ltac:(lia) eq_refl).
  split; [exact Hforce|]. split; [|exact Hids].
  apply (f_equal (fun calls => length calls)) in Hforce.
  vm_compute in Hforce. injection Hforce as Hforce. symmetry. exact Hforce.
Defined.

Section EnrichedPois.

Import Reviews Indexing.

Context (str_float : float -> string).

Lemma enrich_has_text (rd : ReviewData) (poi : Poi) :
  has_text (enrich str_float rd poi) = true.
Proof.
  unfold has_text, enrich. cbn [poi_document_text default].
  match goal with
  | |- context [create_document_text str_float ?p] =>
      destruct (create_document_text_starts_with_name str_float p) as [tail ->]
  end.
  apply truthy_app_nonempty. reflexivity.
Qed.

Lemma filter_enriched (pois : list (ReviewData * Poi)) :
  filter (fun p => has_text p = true)
    ((fun rp => enrich str_float rp.1 rp.2) <$> pois)
  = (fun rp => enrich str_float rp.1 rp.2) <$> pois.
Proof.
  induction pois as [|[rd p] pois IH]; [reflexivity|].
  cbn [fmap list_fmap]. rewrite filter_cons_True by apply enrich_has_text.
  f_equal. exact IH.
Qed.

(** X21: a POI that went through [enrich_pois_with_reviews] is never
    skipped by [index_documents]: its document text is not empty, it
    begins with the name of the POI followed by [ is a ], and the record
    prepared for it carries the POI's id, name and category and, as
    rating, the average rating of its review data (0 when there is
    none). *)
Theorem enriched_pois_are_all_indexed (pois : list (ReviewData * Poi)) :
  ids (prepare ((fun rp => enrich str_float rp.1 rp.2) <$> pois))
  = (fun rp => str_of_Z (poi_id rp.2)) <$> pois
  /\ length (documents (prepare ((fun rp => enrich str_float rp.1 rp.2) <$> pois)))
     = length pois
  /\ forall (i : nat) (rd : ReviewData) (poi : Poi),
       pois !! i = Some (rd, poi) ->
       exists (text : string) (m : Metadata),
         documents (prepare ((fun rp => enrich str_float rp.1 rp.2) <$> pois)) !! i
         = Some text
         /\ PyStr.startswith text (poi_name poi ++ " is a ") = true
         /\ metadatas (prepare ((fun rp => enrich str_float rp.1 rp.2) <$> pois)) !! i
            = Some m
         /\ md_name m = Some (poi_name poi)
         /\ md_category m = Some (poi_category poi)
         /\ md_rating m = Some (default (NInt 0) (rd_average_rating rd)).
Proof.
  rewrite prepare_spec, filter_enriched. cbn [ids documents metadatas].
  rewrite <- !list_fmap_compose.
  split; [reflexivity|]. split; [apply length_fmap|].
  intros i rd poi Hi. eexists _, _.
  rewrite !list_lookup_fmap, Hi. cbn [fmap option_fmap option_map compose fst snd].
  split; [reflexivity|]. split.
  - cbn [enrich poi_document_text default].
    match goal with
    | |- context [create_document_text str_float ?p] =>
        destruct (create_document_text_starts_with_name str_float p) as [tail ->]
    end.
    apply startswith_app.
  - split; [reflexivity|]. repeat split.
Qed.

End EnrichedPois.

Lemma enriched_pois_witness :
  exists text : string,
    Indexing.documents
      (Indexing.prepare
         ((fun rp => Reviews.enrich Samples.str_float rp.1 rp.2)
            <$> [(Samples.two_reviews, Samples.cafe 7 None)])) !! 0
    = Some text
    /\ PyStr.startswith text "Cafe Belg is a " = true.
Proof.
  destruct (enriched_pois_are_all_indexed Samples.str_float
              [(Samples.two_reviews, Samples.cafe 7 None)])
    as (_ & _ & Hall).
  destruct (Hall 0 Samples.two_reviews (Samples.cafe 7 None) eq_refl)
    as (text & m & Ht & Hp & _).
  exists text. split; [exact Ht|exact Hp].
Defined.

Example document_text_of_a_cafe :
  Reviews.create_document_text Samples.str_float
    (Reviews.enrich Samples.str_float Samples.two_reviews (Samples.cafe 7 None))
  = "Cafe Belg is a cafe in Częstochowa, Poland. It is located at Aleja NMP 32. "
    ++ "The cuisine type is coffee shop, cake. "
    ++ "Average rating: 4.0/5 based on 3 reviews. "
    ++ "Review (5/5): " ++ PyStr.dq ++ "Perfect spot for coffee!" ++ PyStr.dq
    ++ " Review (4/5): " ++ PyStr.dq ++ "Good selection of teas." ++ PyStr.dq.
Proof. vm_compute. reflexivity. Qed.

(** ** The evaluation metrics *)

Lemma lower_truthy (s : string) : PyStr.truthy (Metrics.lower s) = PyStr.truthy s.
Proof. destruct s; reflexivity. Qed.

Lemma keyword_matches_by_lower (answer answer' : string) :
  Metrics.lower answer = Metrics.lower answer' ->
  forall kws kws' : list string,
    Metrics.lower <$> kws = Metrics.lower <$> kws' ->
    Metrics.keyword_matches answer kws = Metrics.keyword_matches answer' kws'.
Proof.
  intros Ha. unfold Metrics.keyword_matches. rewrite Ha.
  induction kws as [|kw kws IH]; intros [|kw' kws'] H; try discriminate H;
    [reflexivity|].
  cbn [fmap list_fmap] in H. injection H as Hkw Hrest.
  rewrite !filter_cons, Hkw.
  destruct (decide _); cbn [length]; rewrite (IH kws' Hrest); reflexivity.
Qed.

(** X22: [keyword_overlap_score] looks at lowercased text only: two
    answers that agree up to letter case get the same score against two
    keyword lists that agree up to letter case. *)
Theorem keyword_overlap_ignores_case
    (answer answer' : string) (kws kws' : list string) :
  Metrics.lower answer = Metrics.lower answer' ->
  Metrics.lower <$> kws = Metrics.lower <$> kws' ->
  Metrics.keyword_overlap_score answer kws
  = Metrics.keyword_overlap_score answer' kws'.
Proof.
  intros Ha Hk. unfold Metrics.keyword_overlap_score.
  rewrite (keyword_matches_by_lower answer answer' Ha kws kws' Hk).
  assert (Ht : PyStr.truthy answer = PyStr.truthy answer')
    by (rewrite <- (lower_truthy answer), Ha; apply lower_truthy).
  assert (Hl : length kws = length kws')
    by (rewrite <- (length_fmap Metrics.lower kws), Hk; apply length_fmap).
  rewrite Ht, Hl.
  destruct kws, kws'; try discriminate Hk; reflexivity.
Qed.

Lemma keyword_overlap_witness :
  Metrics.keyword_overlap_score "Visit JASNA GORA and the Old Town."
    ["jasna gora"; "Museum"]
  = Metrics.keyword_overlap_score "visit jasna gora and the old town."
      ["Jasna Gora"; "museum"].
Proof.
  apply keyword_overlap_ignores_case; reflexivity.
Defined.

Example keyword_overlap_half :
  Metrics.keyword_overlap_score "Visit JASNA GORA and the Old Town."
    ["jasna gora"; "Museum"] = 0.5%float.
Proof. vm_compute. reflexivity. Qed.

(** X23: [add_result] appends one entry and leaves the earlier ones
    alone; the answer it stores is the answer itself when that has at most
    200 characters, and otherwise its first 200 characters followed by
    [...], so a stored answer is never longer than 203 characters. *)
Theorem add_result_truncates_answer
    {M : Type} (results : list (Metrics.Result M))
    (question answer : string) (metrics : M) :
  exists stored : Metrics.Result M,
    Metrics.add_result results question answer metrics = (results ++ [stored])%list
    /\ Metrics.res_question stored = question
    /\ Metrics.res_metrics stored = metrics
    /\ String.length (Metrics.res_answer stored) <= 203
    /\ (String.length answer <= 200 -> Metrics.res_answer stored = answer)
    /\ (200 < String.length answer ->
        Metrics.res_answer stored = PyStr.take 200 answer ++ "..."
        /\ String.length (Metrics.res_answer stored) = 203).
Proof.
  eexists. split; [reflexivity|].
  cbn [Metrics.res_question Metrics.res_metrics Metrics.res_answer].
  split; [reflexivity|]. split; [reflexivity|].
  destruct (Nat.ltb_spec 200 (String.length answer)) as [Hlong|Hshort].
  - rewrite str_app_length, take_length. cbn [String.length].
    split; [lia|]. split; [lia|]. intros _. split; [reflexivity|lia].
  - split; [lia|]. split; [reflexivity|lia].
Qed.

Lemma add_result_witness :
  exists stored : Metrics.Result nat,
    Metrics.add_result [] "Where to eat?" "Try the pierogi." 1 = [stored]
    /\ Metrics.res_answer stored = "Try the pierogi.".
Proof.
  destruct (add_result_truncates_answer [] "Where to eat?" "Try the pierogi." 1)
    as (stored & Hadd & _ & _ & _ & Hshort & _).
  exists stored. split; [exact Hadd|]. apply Hshort. cbn. lia.
Defined.

(** ** Ties of the ranking *)

Example rank_keeps_ties_in_insertion_order :
  Chroma.rank (Demo.distance Demo.question)
    [Demo.hotel 2; Demo.museum; Demo.jasna_gora; Demo.hotel 3]
  = [Demo.jasna_gora; Demo.hotel 2; Demo.museum; Demo.hotel 3].
Proof. vm_compute. reflexivity. Qed.

(** ** The context block *)

Lemma join_snoc (sep : string) (parts : list string) (p : string) :
  parts <> [] ->
  PyStr.join sep (parts ++ [p]) = PyStr.join sep parts ++ sep ++ p.
Proof.
  induction parts as [|q [|r parts] IH]; intros Hne;
    [congruence|reflexivity|].
  change (PyStr.join sep ((q :: r :: parts) ++ [p]))
    with (q ++ sep ++ PyStr.join sep ((r :: parts) ++ [p])).
  change (PyStr.join sep (q :: r :: parts))
    with (q ++ sep ++ PyStr.join sep (r :: parts)).
  rewrite IH by discriminate. rewrite !str_app_assoc. reflexivity.
Qed.

Lemma to_uint_nonnil (n : nat) : Nat.to_uint n <> Decimal.Nil.
Proof.
  rewrite <- (DecimalNat.Unsigned.of_to n) at 1.
  rewrite DecimalNat.Unsigned.to_of. apply DecimalFacts.unorm_nonnil.
Qed.

(** [str(n)] is the decimal numeral of [n]: reading it back gives [n]. *)
Lemma of_nat_reads_back (n : nat) :
  Nat.of_uint <$> NilZero.uint_of_string (PyStr.of_nat n) = Some n.
Proof.
  unfold PyStr.of_nat. rewrite NilZero.usu by apply to_uint_nonnil.
  cbn. f_equal. apply DecimalNat.Unsigned.of_to.
Qed.

Lemma build_context_snoc (docs : list RetrievedDoc) (d : RetrievedDoc) :
  docs <> [] ->
  build_context (docs ++ [d])
  = build_context docs ++ PyStr.nl ++ PyStr.nl
    ++ "[Source " ++ PyStr.of_nat (length docs + 1) ++ "]: " ++ doc_document d.
Proof.
  intros Hne. rewrite !build_context_parts, imap_app.
  cbn [imap]. rewrite join_snoc.
  - unfold context_part at 2. rewrite Nat.add_0_r, Nat.add_1_r.
    rewrite !str_app_assoc. reflexivity.
  - destruct docs; [congruence|discriminate].
Qed.

(** C7: [build_context] of the empty list is the empty string, and of one
    document it is the label [[Source 1]: ] followed by the document's
    text.  Each further document appends a blank line, the label with the
    document's rank and its unchanged text to the context of the documents
    ranked before it, so the texts stand in retrieval order, each after
    the label of its rank and none of them altered.  The number in a
    label is the decimal numeral of the rank.  The context depends on
    nothing but the texts and their order. *)
Theorem build_context_labels_in_rank_order
    (docs : list RetrievedDoc) (d : RetrievedDoc) :
  build_context [] = ""
  /\ build_context [d] = "[Source 1]: " ++ doc_document d
  /\ (docs <> [] ->
      build_context (docs ++ [d])
      = build_context docs ++ PyStr.nl ++ PyStr.nl
        ++ "[Source " ++ PyStr.of_nat (length docs + 1) ++ "]: "
        ++ doc_document d)
  /\ (forall n : nat,
        Nat.of_uint <$> NilZero.uint_of_string (PyStr.of_nat n) = Some n)
  /\ (forall docs' : list RetrievedDoc,
        doc_document <$> docs' = doc_document <$> docs ->
        build_context docs' = build_context docs).
Proof.
  split; [reflexivity|]. split; [reflexivity|].
  split; [apply build_context_snoc|]. split; [apply of_nat_reads_back|].
  intros docs' Heq. rewrite !build_context_parts. f_equal.
  change context_part
    with (fun i => (fun t => "[Source " ++ PyStr.of_nat (S i) ++ "]: " ++ t)
                   ∘ doc_document).
  rewrite <- !imap_fmap, Heq. reflexivity.
Qed.

Lemma build_context_labels_witness :
  build_context (retrieved_of Demo.W_down Demo.question
                   <$> [Demo.jasna_gora; Demo.unlabelled])
  = "[Source 1]: Jasna Gora Monastery houses the Black Madonna painting."
    ++ PyStr.nl ++ PyStr.nl ++ "[Source 2]: A quiet park by the river.".
Proof.
  destruct (build_context_labels_in_rank_order
              [retrieved_of Demo.W_down Demo.question Demo.jasna_gora]
              (retrieved_of Demo.W_down Demo.question Demo.unlabelled))
    as (_ & _ & Hsnoc & _).
  change (retrieved_of Demo.W_down Demo.question
            <$> [Demo.jasna_gora; Demo.unlabelled])
    with ([retrieved_of Demo.W_down Demo.question Demo.jasna_gora]
            ++ [retrieved_of Demo.W_down Demo.question Demo.unlabelled])%list.
  rewrite Hsnoc by discriminate. vm_compute. reflexivity.
Defined.

(** Eleven documents: the labels count on in decimal. *)
Example build_context_of_eleven :
  build_context
    ((fun text => {| doc_document := text; doc_metadata := md_empty;
                     doc_distance := 0%float; doc_id := None |})
       <$> ["a"; "b"; "c"; "d"; "e"; "f"; "g"; "h"; "i"; "j"; "k"])
  = "[Source 1]: a" ++ PyStr.nl ++ PyStr.nl
    ++ "[Source 2]: b" ++ PyStr.nl ++ PyStr.nl
    ++ "[Source 3]: c" ++ PyStr.nl ++ PyStr.nl
    ++ "[Source 4]: d" ++ PyStr.nl ++ PyStr.nl
    ++ "[Source 5]: e" ++ PyStr.nl ++ PyStr.nl
    ++ "[Source 6]: f" ++ PyStr.nl ++ PyStr.nl
    ++ "[Source 7]: g" ++ PyStr.nl ++ PyStr.nl
    ++ "[Source 8]: h" ++ PyStr.nl ++ PyStr.nl
    ++ "[Source 9]: i" ++ PyStr.nl ++ PyStr.nl
    ++ "[Source 10]: j" ++ PyStr.nl ++ PyStr.nl
    ++ "[Source 11]: k".
Proof. vm_compute. reflexivity. Qed.

(** ** Source entries of a record without metadata *)

(** On matches whose metadata is a dict the two comprehensions are the
    maps of [source_of] and [stream_source_of]. *)
Lemma sources_of_dicts (docs : list RetrievedDoc) :
  Unguarded.sources (Unguarded.of_doc <$> docs) = Ok (source_of <$> docs)
  /\ Unguarded.stream_sources (Unguarded.of_doc <$> docs)
     = Ok (stream_source_of <$> docs).
Proof.
  unfold Unguarded.sources, Unguarded.stream_sources.
  induction docs as [|d docs [IH1 IH2]]; [split; reflexivity|].
  cbn [fmap list_fmap Unguarded.comprehension].
  change (list_fmap _ _ Unguarded.of_doc docs) with (Unguarded.of_doc <$> docs).
  rewrite IH1, IH2. split; reflexivity.
Qed.

Lemma comprehension_raises {B} (f : Unguarded.Match -> PyResult B)
    (pre post : list Unguarded.Match) (doc : Unguarded.Match) :
  (forall d : Unguarded.Match,
     f d = Raise AttributeError \/ exists b : B, f d = Ok b) ->
  f doc = Raise AttributeError ->
  Unguarded.comprehension f (pre ++ doc :: post)%list = Raise AttributeError.
Proof.
  intros Hf Hdoc. induction pre as [|x pre IH]; cbn [app Unguarded.comprehension].
  - rewrite Hdoc. reflexivity.
  - destruct (Hf x) as [->|[b ->]]; [reflexivity|].
    rewrite IH. reflexivity.
Qed.

(** C10: the code does not keep the claim.  A record that was added to
    the collection without metadata comes back from the collection with
    [None] as its metadata entry and [search] passes the entry through.
    Wherever such a match stands among the retrieved documents, the
    sources comprehension of [query] and that of [query_stream] raise
    [AttributeError] and produce no entry at all, while the loop of
    [get_all_categories] skips the same record under its guard.  So it is
    on the answer of a collection that holds the monastery's record and
    one record without metadata: [search] formats both matches, both
    comprehensions raise, and the categories are listed. *)
Theorem source_entries_raise_without_metadata
    (pre post : list Unguarded.Match) (document : string) (distance : float) :
  Unguarded.sources
    (pre ++ {| Unguarded.mt_document := document;
               Unguarded.mt_metadata := None;
               Unguarded.mt_distance := distance |} :: post)%list
  = Raise AttributeError
  /\ Unguarded.stream_sources
       (pre ++ {| Unguarded.mt_document := document;
                  Unguarded.mt_metadata := None;
                  Unguarded.mt_distance := distance |} :: post)%list
     = Raise AttributeError
  /\ Unguarded.categories_loop
       ((Unguarded.mt_metadata <$> pre)
          ++ None :: (Unguarded.mt_metadata <$> post))%list
     = Unguarded.categories_loop
         ((Unguarded.mt_metadata <$> pre) ++ (Unguarded.mt_metadata <$> post))%list
  /\ exists docs : list Unguarded.Match,
       Unguarded.search_loop Unguarded.bench_results 0
         (Unguarded.raw_documents Unguarded.bench_results)
       = Ok docs
       /\ Unguarded.mt_metadata <$> docs
          = [Some (sd_metadata Demo.jasna_gora); None]
       /\ Unguarded.sources docs = Raise AttributeError
       /\ Unguarded.stream_sources docs = Raise AttributeError
       /\ Unguarded.sources (take 1 docs)
          = Ok [ {| src_name := "Jasna Gora"; src_category := "religious_site";
                    src_rating := NFloat 5%float;
                    src_relevance_score := 0.75%float |} ]
       /\ VectorStore.sorted
            (Unguarded.categories_loop
               (Unguarded.raw_metadatas Unguarded.bench_results))
          = ["religious_site"].
Proof.
  split; [|split; [|split]].
  - apply comprehension_raises; [|reflexivity].
    intros [t [md|] dist]; [right; eexists; reflexivity|left; reflexivity].
  - apply comprehension_raises; [|reflexivity].
    intros [t [md|] dist]; [right; eexists; reflexivity|left; reflexivity].
  - unfold Unguarded.categories_loop. rewrite !foldl_app. reflexivity.
  - eexists. split; [reflexivity|].
    repeat split; vm_compute; reflexivity.
Qed.
